(** * The rpmsg tty driver (drivers/tty/rpmsg_tty.c)

    A shallow embedding of the driver's receive path (dispatcher, data and
    control handlers), transmit path (write, write_room, control messages,
    dtr_rts) and port life cycle (alloc_cport, release_cport, probe,
    remove), and the properties of the framing, the flow-control flag and
    the port registry.

    Conventions.
    - [int] values are [Z]; where the C code computes on them the 32-bit
      wrap-around is written out with [int_of] and [uint_of].
    - A [u8] is a [Byte.byte]; a message buffer of [len] bytes is a
      [list u8] of that length, so [len] is never negative.
    - A function that logs, wakes the tty or sends on the endpoint returns
      the list of those effects, in program order.
    - What the kernel answers to a call (memory available, room in the flip
      buffer, size of an rpmsg buffer, result of a send or of a
      registration) is read from an environment record given to the call.
    - [Oops] is an invalid memory access. *)

From Stdlib Require Import ZArith Lia Bool.
From Stdlib Require Import Strings.Byte.
From stdpp Require Import base option list gmap infinite.

Open Scope Z_scope.

(** ** Machine integers *)

Abbreviation u8 := Byte.byte.

Definition u8_to_Z (b : u8) : Z := Z.of_N (Byte.to_N b).

Definition u8_of_Z (z : Z) : u8 :=
  match Byte.of_N (Z.to_N (z mod 256)) with
  | Some b => b
  | None => Byte.x00
  end.

Definition INT_MAX : Z := 2147483647.
Definition INT_MIN : Z := -2147483648.

(** Conversion to [unsigned int] and to [int] (two's complement). *)
Definition uint_of (z : Z) : Z := z mod 4294967296.
Definition int_of (z : Z) : Z := (z + 2147483648) mod 4294967296 - 2147483648.

(** ** Constants of the driver and error numbers *)

Definition MAX_TTY_RPMSG : Z := 32.

(* enum rpmsg_tty_type_t *)
Definition RPMSG_DATA : Z := 0.
Definition RPMSG_CTRL : Z := 1.
Definition NUM_RPMSG_TTY_TYPE : Z := 2.

(* enum rpmsg_tty_ctrl_t *)
Definition DATA_TERM_READY : Z := 0.
Definition NUM_RPMSG_TTY_CTRL_TYPE : Z := 1.

(* struct rpmsg_tty_payload { u8 cmd; u8 data[0]; } and
   struct rpmsg_tty_ctrl { u8 ctrl; u8 values[0]; } *)
Definition sizeof_rpmsg_tty_payload : Z := 1.
Definition sizeof_rpmsg_tty_ctrl : Z := 1.

Definition ENOMEM : Z := 12.
Definition ENODEV : Z := 19.
Definition EINVAL : Z := 22.
Definition ENOSPC : Z := 28.

(** ** Results and effects *)

Inductive outcome (A : Type) : Type :=
| Done (a : A)
| Oops.
Arguments Done {A} a.
Arguments Oops {A}.

Inductive log_msg : Type :=
| msg_rx (src len : Z)                     (* "msg(<- src 0x%x) len %d" *)
| trunc_buffer (copied : Z)                (* "trunc buffer: available space is %d" *)
| ctrl_received (ctrl : option u8)         (* "%s: ctrl received %d" *)
| ctrl_message_invalid                     (* "%s: ctrl message invalid" *)
| unknown_control_ID (ctrl : u8)           (* "unknown control ID %d" *)
| invalid_message (len : Z) (cmd : option u8) (* "Invalid message: size %d, type %d" *)
| cannot_send_control (ret : Z)            (* "cannot send control (%d)" *)
| send_msg (len : Z)                       (* "%s: send msg from tty->index = %d, len = %d" *)
| rpmsg_send_failed (ret : Z)              (* "rpmsg_send failed: %d" *)
| failed_to_alloc_tty_port                 (* "failed to alloc tty port" *)
| failed_to_register_tty_port              (* "failed to register tty port" *)
| new_channel (id : Z)                     (* "new channel: 0x%x -> 0x%x : ttyRPMSG%d" *)
| removing_device (id : Z).                (* "removing rpmsg tty device %d" *)

Inductive effect : Type :=
| dev_dbg (m : log_msg)
| dev_err (m : log_msg)
| print_hex_dump_debug (data : list u8)
| tty_insert_flip_string_fixed_flag (data : list u8) (copied : Z)
| tty_flip_buffer_push
| tty_port_tty_wakeup
| rpmsg_trysend (msg : list u8) (ret : Z)
| tty_port_init (cport : nat)
| tty_port_register_device (cport : nat) (index : Z) (err : option Z)
| tty_port_destroy (cport : nat)
| tty_port_tty_hangup (cport : nat)
| tty_unregister_device (index : Z).

(** ** The port *)

(** Modelled from the spec: the stream consumer behind [struct tty_port] is
    the kernel's flip buffer (drivers/tty/tty_buffer.c, not part of the
    driver file). It is kept as the bytes accepted so far; an insertion
    accepts the part of the payload that fits the room it finds. *)
Record tty_port : Type := { rx : list u8 }.

Record rpmsg_tty_port : Type := {
  port : tty_port;       (* TTY port data *)
  id : Z;                (* TTY rpmsg index *)
  cts : Z;               (* remote reception status *)
  rpdev : option Z       (* rpmsg device, None for NULL *)
}.

Definition set_cts (v : Z) (cport : rpmsg_tty_port) : rpmsg_tty_port :=
  {| port := port cport; id := id cport; cts := v; rpdev := rpdev cport |}.

Definition set_id (v : Z) (cport : rpmsg_tty_port) : rpmsg_tty_port :=
  {| port := port cport; id := v; cts := cts cport; rpdev := rpdev cport |}.

Definition set_rpdev (r : option Z) (cport : rpmsg_tty_port) : rpmsg_tty_port :=
  {| port := port cport; id := id cport; cts := cts cport; rpdev := r |}.

Definition set_port (p : tty_port) (cport : rpmsg_tty_port) : rpmsg_tty_port :=
  {| port := p; id := id cport; cts := cts cport; rpdev := rpdev cport |}.

(** What the kernel answers during one call into the driver. *)
Record env : Type := {
  flip_room : Z;          (* room tty_insert_flip_string_fixed_flag finds *)
  kzalloc_ok : bool;      (* kzalloc returns memory *)
  buf_payload_size : Z;   (* rpmsg_get_buf_payload_size(rpdev->ept) *)
  trysend_ret : Z         (* rpmsg_trysend(rpdev->ept, ...) *)
}.

(** ** Receive path *)

Definition rpmsg_tty_data_handler (e : env) (cport : rpmsg_tty_port)
    (data : list u8) (src : Z) : rpmsg_tty_port * list effect :=
  let len := Z.of_nat (length data) in
  let log := [dev_dbg (msg_rx src len)] in
  if len =? 0 then (cport, log)
  else
    let copied := Z.max 0 (Z.min len (flip_room e)) in
    let cport' :=
      set_port {| rx := rx (port cport) ++ take (Z.to_nat copied) data |} cport in
    (cport',
     log ++ [tty_insert_flip_string_fixed_flag data copied]
         ++ (if copied =? len then [] else [dev_dbg (trunc_buffer copied)])
         ++ [tty_flip_buffer_push]).

Definition rpmsg_tty_ctrl_handler (e : env) (cport : rpmsg_tty_port)
    (data : list u8) (src : Z) : rpmsg_tty_port * list effect :=
  let len := Z.of_nat (length data) in
  let log := [dev_dbg (ctrl_received (head data)); print_hex_dump_debug data] in
  if len <=? sizeof_rpmsg_tty_ctrl then
    (cport, log ++ [dev_err ctrl_message_invalid])
  else
    match data with
    | ctrl :: v0 :: _ =>
        if u8_to_Z ctrl =? DATA_TERM_READY then
          (* Update the CTS according to remote RTS *)
          if u8_to_Z v0 =? 0 then (set_cts 0 cport, log)
          else (set_cts 1 cport, log ++ [tty_port_tty_wakeup])
        else (cport, log ++ [dev_err (unknown_control_ID ctrl)])
    | _ => (cport, log) (* no such data: len exceeds sizeof *ctrl *)
    end.

Definition rpmsg_tty_rx_cb_t : Type :=
  env -> rpmsg_tty_port -> list u8 -> Z -> rpmsg_tty_port * list effect.

(** The handler table, indexed by the frame type; [None] outside it. *)
Definition rpmsg_tty_handler (cmd : Z) : option rpmsg_tty_rx_cb_t :=
  if cmd =? RPMSG_DATA then Some rpmsg_tty_data_handler
  else if cmd =? RPMSG_CTRL then Some rpmsg_tty_ctrl_handler
  else None.

Definition rpmsg_tty_cb (e : env) (cport : rpmsg_tty_port) (data : list u8)
    (src : Z) : outcome (Z * rpmsg_tty_port * list effect) :=
  let len := Z.of_nat (length data) in
  let reject := Done (- EINVAL, cport, [dev_err (invalid_message len (head data))]) in
  match data with
  | [] => reject (* len is at most sizeof *rbuf; rbuf->cmd is not tested *)
  | cmd :: payload =>
      if (len <=? sizeof_rpmsg_tty_payload)
         || (NUM_RPMSG_TTY_TYPE <=? u8_to_Z cmd) then reject
      else
        match rpmsg_tty_handler (u8_to_Z cmd) with
        | Some handler =>
            let '(cport', log) := handler e cport payload src in
            Done (0, cport', log)
        | None => Oops (* call through a pointer outside the table *)
        end
  end.

(** ** Transmit path

    The endpoint is reached through [cport->rpdev], which is NULL from the
    creation of the port until the probe sets it: reading [rpdev->ept]
    through NULL is an invalid access. The environment answers for the
    endpoint of an attached port. *)

(** The [ctrl] argument is not used by the C function: the message always
    names [DATA_TERM_READY]. [values] holds the [n_value] bytes copied. *)
Definition rpmsg_tty_write_control (e : env) (cport : rpmsg_tty_port)
    (ctrl : Z) (values : list u8) : outcome (Z * list effect) :=
  if negb (kzalloc_ok e) then Done (- ENOMEM, [])
  else
    let msg := u8_of_Z RPMSG_CTRL :: u8_of_Z DATA_TERM_READY :: values in
    match rpdev cport with
    | None => Oops (* rpdev->ept read through NULL *)
    | Some _ =>
        let ret := trysend_ret e in
        if ret <? 0 then
          Done (0, [rpmsg_trysend msg ret; dev_dbg (cannot_send_control ret)])
        else Done (ret, [rpmsg_trysend msg ret])
    end.

Definition rpmsg_tty_throttle (e : env) (cport : rpmsg_tty_port)
    : outcome (list effect) :=
  let rts := u8_of_Z 0 in
  (* Disable remote transmission *)
  match rpmsg_tty_write_control e cport DATA_TERM_READY [rts] with
  | Done (_, log) => Done log
  | Oops => Oops
  end.

Definition rpmsg_tty_unthrottle (e : env) (cport : rpmsg_tty_port)
    : outcome (list effect) :=
  let rts := u8_of_Z 1 in
  (* Enable remote transmission *)
  match rpmsg_tty_write_control e cport DATA_TERM_READY [rts] with
  | Done (_, log) => Done log
  | Oops => Oops
  end.

Definition rpmsg_tty_write (e : env) (cport : rpmsg_tty_port) (buf : list u8)
    : outcome (Z * list effect) :=
  let len := Z.of_nat (length buf) in
  let cmd_sz := sizeof_rpmsg_tty_payload in
  (* If cts not set, the message is not sent *)
  if cts cport =? 0 then Done (0, [])
  else
    match rpdev cport with
    | None => Oops (* rpdev->ept read through NULL *)
    | Some _ =>
        let log := [dev_dbg (send_msg len)] in
        let msg_max_size := buf_payload_size e in
        if msg_max_size <? 0 then Done (msg_max_size, log)
        else
          let msg_size := uint_of (Z.min (int_of (len + cmd_sz)) msg_max_size) in
          if msg_size =? 0 then
            (* kzalloc(0) gives ZERO_SIZE_PTR, not NULL: tmpbuf[0] is outside it *)
            Oops
          else if negb (kzalloc_ok e) then Done (- ENOMEM, log)
          else
            let tmpbuf :=
              u8_of_Z RPMSG_DATA
                :: take (Z.to_nat (uint_of (msg_size - cmd_sz))) buf in
            (* Try to send the message to remote processor, if failed return
               0 as no data sent *)
            let ret := trysend_ret e in
            if negb (ret =? 0) then
              Done (0, log ++ [rpmsg_trysend tmpbuf ret;
                               dev_dbg (rpmsg_send_failed ret)])
            else
              Done (int_of (msg_size - cmd_sz), log ++ [rpmsg_trysend tmpbuf ret])
    end.

Definition rpmsg_tty_write_room (e : env) (cport : rpmsg_tty_port)
    : outcome Z :=
  let space := 0 in
  (* Report the space in the rpmsg buffer, first byte is reserved to define
     the buffer type. *)
  if negb (cts cport =? 0) then
    match rpdev cport with
    | None => Oops (* cport->rpdev->ept read through NULL *)
    | Some _ =>
        let space := buf_payload_size e in
        Done (int_of (space - sizeof_rpmsg_tty_payload))
    end
  else Done space.

Definition rpmsg_tty_dtr_rts (e : env) (cport : rpmsg_tty_port) (raise : Z)
    : outcome (rpmsg_tty_port * list effect) :=
  let cport' := set_cts raise cport in
  match (if negb (raise =? 0) then rpmsg_tty_unthrottle e cport'
         else rpmsg_tty_throttle e cport') with
  | Done log => Done (cport', log)
  | Oops => Oops
  end.

(** ** The entry points of one port, as a step function

    An event is one call into the driver for a given port, from the rpmsg
    bus ([Cb]) or from the tty layer. [step] gives the value returned, the
    port afterwards and the effects. *)

Inductive event : Type :=
| Cb (data : list u8) (src : Z)
| Write (buf : list u8)
| Write_room
| Throttle
| Unthrottle
| Dtr_rts (raise : Z).

Definition step (e : env) (cport : rpmsg_tty_port) (ev : event)
    : outcome (Z * rpmsg_tty_port * list effect) :=
  match ev with
  | Cb data src => rpmsg_tty_cb e cport data src
  | Write buf =>
      match rpmsg_tty_write e cport buf with
      | Done (ret, log) => Done (ret, cport, log)
      | Oops => Oops
      end
  | Write_room =>
      match rpmsg_tty_write_room e cport with
      | Done ret => Done (ret, cport, [])
      | Oops => Oops
      end
  | Throttle =>
      match rpmsg_tty_throttle e cport with
      | Done log => Done (0, cport, log)
      | Oops => Oops
      end
  | Unthrottle =>
      match rpmsg_tty_unthrottle e cport with
      | Done log => Done (0, cport, log)
      | Oops => Oops
      end
  | Dtr_rts raise =>
      match rpmsg_tty_dtr_rts e cport raise with
      | Done (cport', log) => Done (0, cport', log)
      | Oops => Oops
      end
  end.

(** The port after a sequence of calls, each with what the kernel answers
    during it. *)
Fixpoint run (cport : rpmsg_tty_port) (evs : list (env * event))
    : outcome rpmsg_tty_port :=
  match evs with
  | [] => Done cport
  | (e, ev) :: evs' =>
      match step e cport ev with
      | Done (_, cport', _) => run cport' evs'
      | Oops => Oops
      end
  end.

(** ** The registry and the life cycle of a port *)

(** Modelled from the spec: the id allocator behind [tty_idr] (lib/idr.c) is
    kernel code outside the driver file. The registry is a mapping from id
    to port; insertion assigns the lowest free id of the range asked for,
    or fails for lack of a free id ([-ENOSPC]) or of memory ([-ENOMEM]);
    removal frees the id for reuse. A port is named by its address. *)
Definition idr_alloc (idr : gmap Z nat) (ptr : nat) (start end_ : Z)
    (mem_ok : bool) : Z * gmap Z nat :=
  if negb mem_ok then (- ENOMEM, idr)
  else
    match list_find (λ i, idr !! i = None) (seqZ start (end_ - start)) with
    | Some (_, i) => (i, <[i := ptr]> idr)
    | None => (- ENOSPC, idr)
    end.

Definition idr_remove (idr : gmap Z nat) (i : Z) : gmap Z nat := delete i idr.

Definition idr_find (idr : gmap Z nat) (i : Z) : option nat := idr !! i.

(** The driver's global state: the registry, the ports in allocated memory
    (by address) and the driver data of the rpmsg devices. *)
Record kstate : Type := {
  tty_idr : gmap Z nat;
  heap : gmap nat rpmsg_tty_port;
  drvdata : gmap Z nat
}.

Definition set_tty_idr (idr : gmap Z nat) (k : kstate) : kstate :=
  {| tty_idr := idr; heap := heap k; drvdata := drvdata k |}.

Definition set_heap (h : gmap nat rpmsg_tty_port) (k : kstate) : kstate :=
  {| tty_idr := tty_idr k; heap := h; drvdata := drvdata k |}.

Definition dev_set_drvdata (rpdev : Z) (p : nat) (k : kstate) : kstate :=
  {| tty_idr := tty_idr k; heap := heap k; drvdata := <[rpdev := p]> (drvdata k) |}.

(** Memory as [kzalloc] returns it: all fields zero. *)
Definition zeroed : rpmsg_tty_port :=
  {| port := {| rx := [] |}; id := 0; cts := 0; rpdev := None |}.

Definition kzalloc (k : kstate) : nat * kstate :=
  let p := fresh (dom (heap k)) in (p, set_heap (<[p := zeroed]> (heap k)) k).

Definition kfree (p : nat) (k : kstate) : kstate := set_heap (delete p (heap k)) k.

(** What the kernel answers during a life-cycle call. *)
Record kenv : Type := {
  cport_mem : bool;           (* kzalloc of the port returns memory *)
  idr_mem : bool;             (* idr_alloc finds memory for its nodes *)
  register_err : option Z;    (* tty_port_register_device: None for a device,
                                 Some e for ERR_PTR(e) *)
  port_initialized : bool     (* tty_port_initialized(&cport->port) *)
}.

(** A pointer or an [ERR_PTR]. *)
Inductive ptr_or_err : Type :=
| PTR (p : nat)
| ERR_PTR (err : Z).

Definition rpmsg_tty_alloc_cport (e : kenv) (k : kstate) : ptr_or_err * kstate :=
  if negb (cport_mem e) then (ERR_PTR (- ENOMEM), k)
  else
    let '(p, k1) := kzalloc k in
    let '(i, idr') := idr_alloc (tty_idr k1) p 0 MAX_TTY_RPMSG (idr_mem e) in
    let k2 := set_heap (<[p := set_id i zeroed]> (heap k1)) (set_tty_idr idr' k1) in
    if i <? 0 then (ERR_PTR (- ENOSPC), kfree p k2)
    else (PTR p, k2).

Definition rpmsg_tty_release_cport (p : nat) (k : kstate) : outcome kstate :=
  match heap k !! p with
  | Some cport => Done (kfree p (set_tty_idr (idr_remove (tty_idr k) (id cport)) k))
  | None => Oops (* cport->id read through a dangling pointer *)
  end.

Definition rpmsg_tty_probe (e : kenv) (rpdev : Z) (k : kstate)
    : outcome (Z * kstate * list effect) :=
  match rpmsg_tty_alloc_cport e k with
  | (ERR_PTR err, k1) => Done (err, k1, [dev_err failed_to_alloc_tty_port])
  | (PTR p, k1) =>
      match heap k1 !! p with
      | None => Oops
      | Some cport =>
          let log :=
            [tty_port_init p; tty_port_register_device p (id cport) (register_err e)] in
          match register_err e with
          | Some ret =>
              let log := log ++ [dev_err failed_to_register_tty_port] in
              (* err_destroy *)
              match rpmsg_tty_release_cport p k1 with
              | Done k2 => Done (ret, k2, log ++ [tty_port_destroy p])
              | Oops => Oops
              end
          | None =>
              let k2 := set_heap (<[p := set_rpdev (Some rpdev) cport]> (heap k1)) k1 in
              let k3 := dev_set_drvdata rpdev p k2 in
              Done (0, k3, log ++ [dev_dbg (new_channel (id cport))])
          end
      end
  end.

Definition rpmsg_tty_remove (e : kenv) (rpdev : Z) (k : kstate)
    : outcome (kstate * list effect) :=
  match drvdata k !! rpdev with
  | None => Oops
  | Some p =>
      match heap k !! p with
      | None => Oops
      | Some cport =>
          let log :=
            [dev_dbg (removing_device (id cport))]
            (* User hang up to release the tty *)
            ++ (if port_initialized e then [tty_port_tty_hangup p] else [])
            ++ [tty_unregister_device (id cport); tty_port_destroy p] in
          match rpmsg_tty_release_cport p k with
          | Done k' => Done (k', log)
          | Oops => Oops
          end
      end
  end.

(** ** Derived notions used in the statements *)

(** What the dispatcher answers to a message it refuses. *)
Definition rejected (cport : rpmsg_tty_port) (data : list u8)
    : outcome (Z * rpmsg_tty_port * list effect) :=
  Done (- EINVAL, cport,
        [dev_err (invalid_message (Z.of_nat (length data)) (head data))]).

(** An inbound control frame that names [DATA_TERM_READY] and carries the
    value byte [v], possibly followed by more value bytes. *)
Definition terminal_ready_frame (v : u8) (more : list u8) : list u8 :=
  u8_of_Z RPMSG_CTRL :: u8_of_Z DATA_TERM_READY :: v :: more.

Record terminal_ready : Type := {
  tr_env : env;
  tr_value : u8;
  tr_more : list u8;
  tr_src : Z
}.

Definition terminal_ready_event (u : terminal_ready) : env * event :=
  (tr_env u, Cb (terminal_ready_frame (tr_value u) (tr_more u)) (tr_src u)).

(** The value of the terminal-ready update a call carries, if it carries
    one: an inbound [DATA_TERM_READY] control frame with its value byte, or
    the tty layer raising or dropping DTR/RTS on the port. These are the two
    places of the driver that assign [cts]. *)
Definition terminal_ready_update (ev : event) : option Z :=
  match ev with
  | Cb (cmd :: ctrl :: v0 :: _) _ =>
      if (u8_to_Z cmd =? RPMSG_CTRL) && (u8_to_Z ctrl =? DATA_TERM_READY)
      then Some (u8_to_Z v0) else None
  | Dtr_rts raise => Some raise
  | _ => None
  end.

Definition raises_ready (ev : event) : bool :=
  match terminal_ready_update ev with
  | Some v => negb (v =? 0)
  | None => false
  end.

(** Sample values for the instances below. *)
Definition env_ok : env :=
  {| flip_room := 4096; kzalloc_ok := true; buf_payload_size := 496;
     trysend_ret := 0 |}.

Definition env_busy : env :=
  {| flip_room := 4096; kzalloc_ok := true; buf_payload_size := 496;
     trysend_ret := - ENOMEM |}.

Definition env_small : env :=
  {| flip_room := 4096; kzalloc_ok := true; buf_payload_size := 4;
     trysend_ret := 0 |}.

Definition ready_port : rpmsg_tty_port := set_cts 1 zeroed.

(** A port attached to the rpmsg device 7, as the probe leaves it, with the
    flag down and with the flag up. *)
Definition attached_port : rpmsg_tty_port := set_rpdev (Some 7) zeroed.

Definition attached_ready_port : rpmsg_tty_port := set_cts 1 attached_port.

Definition kenv_ok : kenv :=
  {| cport_mem := true; idr_mem := true; register_err := None;
     port_initialized := false |}.

Definition kenv_register_fails : kenv :=
  {| cport_mem := true; idr_mem := true; register_err := Some (- ENODEV);
     port_initialized := false |}.

(** The driver's state after [rpmsg_tty_init]: no port. *)
Definition kstate_init : kstate :=
  {| tty_idr := ∅; heap := ∅; drvdata := ∅ |}.

(** The state after [n] more ports have been created. *)
Fixpoint alloc_ports (n : nat) (k : kstate) : kstate :=
  match n with
  | O => k
  | S n' => alloc_ports n' (rpmsg_tty_alloc_cport kenv_ok k).2
  end.

Definition kstate_three : kstate := alloc_ports 3 kstate_init.

Definition kstate_full : kstate := alloc_ports 32 kstate_init.

(** Whether the ids [0 .. n-1] are all in use. *)
Definition ids_in_use (idr : gmap Z nat) (n : Z) : bool :=
  forallb (λ j, match idr !! j with Some _ => true | None => false end)
    (seqZ 0 n).


(** ** Binding a tty to its port *)

(** The fields of [struct tty_struct] the driver uses. *)
Record tty_struct : Type := {
  index : Z;                     (* tty->index *)
  driver_data : option nat       (* tty->driver_data, None for NULL *)
}.

Inductive install_effect : Type :=
| dev_err_cannot_get_cport                   (* "cannot get cport" *)
| tty_port_install (cport : nat) (ret : Z).

(** [install_ret] is what [tty_port_install] answers. *)
Definition rpmsg_tty_install (install_ret : Z) (k : kstate) (tty : tty_struct)
    : Z * tty_struct * list install_effect :=
  match idr_find (tty_idr k) (index tty) with
  | None => (- ENODEV, tty, [dev_err_cannot_get_cport])
  | Some cport =>
      (install_ret, {| index := index tty; driver_data := Some cport |},
       [tty_port_install cport install_ret])
  end.

(** ** Sequences of life-cycle calls *)

Inductive kcall : Type :=
| Probe (e : kenv) (rpdev : Z)
| Remove (e : kenv) (rpdev : Z).

Definition kstep (k : kstate) (c : kcall) : outcome kstate :=
  match c with
  | Probe e rpdev =>
      match rpmsg_tty_probe e rpdev k with
      | Done (_, k', _) => Done k'
      | Oops => Oops
      end
  | Remove e rpdev =>
      match rpmsg_tty_remove e rpdev k with
      | Done (k', _) => Done k'
      | Oops => Oops
      end
  end.

Fixpoint krun (k : kstate) (cs : list kcall) : outcome kstate :=
  match cs with
  | [] => Done k
  | c :: cs' =>
      match kstep k c with
      | Done k' => krun k' cs'
      | Oops => Oops
      end
  end.

(** The registry and the memory agree: every id in use is one of
    [0 .. MAX_TTY_RPMSG - 1] and names a port in memory whose [id] field is
    that id, and every port in memory is registered under its [id]. *)
Definition registry_ok (k : kstate) : Prop :=
  (∀ i p, tty_idr k !! i = Some p →
          0 ≤ i < MAX_TTY_RPMSG
          ∧ ∃ cport, heap k !! p = Some cport ∧ id cport = i)
  ∧ (∀ p cport, heap k !! p = Some cport → tty_idr k !! id cport = Some p).

(** ** Module initialisation and exit *)

(** The values of the termios flag macros [ECHO], [ICANON], [OPOST] and
    [ONLCR] and the contents of [tty_std_termios] come from kernel headers
    and the tty core, outside the driver file: they are parameters of the
    initialisation. Of [struct ktermios] the two flag words the driver
    changes are kept, each a [tcflag_t] (unsigned int). *)
Record termbits : Type := { ECHO : Z; ICANON : Z; OPOST : Z; ONLCR : Z }.

Record ktermios : Type := { c_lflag : Z; c_oflag : Z }.

(** What the kernel answers during [rpmsg_tty_init]. *)
Record menv : Type := {
  alloc_driver_err : option Z;   (* tty_alloc_driver: None for a driver,
                                    Some e for ERR_PTR(e) *)
  tty_register_ret : Z;          (* tty_register_driver *)
  rpmsg_register_ret : Z         (* register_rpmsg_driver *)
}.

Inductive module_effect : Type :=
| tty_alloc_driver (lines : Z) (err : option Z)
| tty_set_operations
| tty_register_driver (ret : Z)
| register_rpmsg_driver (ret : Z)
| pr_err_install (err : Z)      (* "Couldn't install rpmsg tty driver: err %d" *)
| pr_err_register (err : Z)     (* "Couldn't register rpmsg tty driver: err %d" *)
| unregister_rpmsg_driver
| tty_unregister_driver
| put_tty_driver
| idr_destroy.

(** [x &= ~(a | b)] on a [tcflag_t]. *)
Definition clear_flags (x a b : Z) : Z :=
  Z.land x (uint_of (Z.lnot (Z.lor a b))).

(** The value returned, the [init_termios] of the driver when it stays
    allocated, and the effects. *)
Definition rpmsg_tty_init (tb : termbits) (tty_std_termios : ktermios)
    (e : menv) : Z * option ktermios * list module_effect :=
  let log := [tty_alloc_driver MAX_TTY_RPMSG (alloc_driver_err e)] in
  match alloc_driver_err e with
  | Some err => (err, None, log)
  | None =>
      (* Disable unused mode by default *)
      let init_termios :=
        {| c_lflag := clear_flags (c_lflag tty_std_termios) (ECHO tb) (ICANON tb);
           c_oflag := clear_flags (c_oflag tty_std_termios) (OPOST tb) (ONLCR tb) |} in
      let err := tty_register_ret e in
      let log := log ++ [tty_set_operations; tty_register_driver err] in
      if err <? 0 then
        (* error_put *)
        (err, None, log ++ [pr_err_install err; put_tty_driver])
      else
        let err := rpmsg_register_ret e in
        let log := log ++ [register_rpmsg_driver err] in
        if err <? 0 then
          (* error_unregister, error_put *)
          (err, None,
           log ++ [pr_err_register err; tty_unregister_driver; put_tty_driver])
        else (0, Some init_termios, log)
  end.

Definition rpmsg_tty_exit : list module_effect :=
  [unregister_rpmsg_driver; tty_unregister_driver; put_tty_driver; idr_destroy].

(** What the module holds: the tty driver structure, its registration and
    the registration of the rpmsg driver. *)
Record held : Type := {
  driver_allocated : bool;
  tty_driver_registered : bool;
  rpmsg_driver_registered : bool
}.

Definition nothing_held : held :=
  {| driver_allocated := false; tty_driver_registered := false;
     rpmsg_driver_registered := false |}.

(** The effect of one kernel call on what the module holds: an allocation
    or a registration that succeeds takes the resource, the matching
    release gives it back. *)
Definition account (h : held) (ef : module_effect) : held :=
  match ef with
  | tty_alloc_driver _ None =>
      {| driver_allocated := true;
         tty_driver_registered := tty_driver_registered h;
         rpmsg_driver_registered := rpmsg_driver_registered h |}
  | tty_register_driver ret =>
      {| driver_allocated := driver_allocated h;
         tty_driver_registered := tty_driver_registered h || negb (ret <? 0);
         rpmsg_driver_registered := rpmsg_driver_registered h |}
  | register_rpmsg_driver ret =>
      {| driver_allocated := driver_allocated h;
         tty_driver_registered := tty_driver_registered h;
         rpmsg_driver_registered := rpmsg_driver_registered h || negb (ret <? 0) |}
  | unregister_rpmsg_driver =>
      {| driver_allocated := driver_allocated h;
         tty_driver_registered := tty_driver_registered h;
         rpmsg_driver_registered := false |}
  | tty_unregister_driver =>
      {| driver_allocated := driver_allocated h;
         tty_driver_registered := false;
         rpmsg_driver_registered := rpmsg_driver_registered h |}
  | put_tty_driver =>
      {| driver_allocated := false;
         tty_driver_registered := tty_driver_registered h;
         rpmsg_driver_registered := rpmsg_driver_registered h |}
  | _ => h
  end.

Definition accounts (h : held) (log : list module_effect) : held :=
  fold_left account log h.

(** Sample values for the instances below. *)
Definition linux_termbits : termbits :=
  {| ECHO := 8; ICANON := 2; OPOST := 1; ONLCR := 4 |}.

Definition std_termios : ktermios := {| c_lflag := 35387; c_oflag := 5 |}.

Definition menv_ok : menv :=
  {| alloc_driver_err := None; tty_register_ret := 0; rpmsg_register_ret := 0 |}.

Definition menv_rpmsg_fails : menv :=
  {| alloc_driver_err := None; tty_register_ret := 0;
     rpmsg_register_ret := - ENOMEM |}.

Definition env_full_room : env :=
  {| flip_room := 2; kzalloc_ok := true; buf_payload_size := 496;
     trysend_ret := 0 |}.

Definition env_no_memory : env :=
  {| flip_room := 4096; kzalloc_ok := false; buf_payload_size := 496;
     trysend_ret := 0 |}.

Definition env_size_error : env :=
  {| flip_room := 4096; kzalloc_ok := true; buf_payload_size := - ENODEV;
     trysend_ret := 0 |}.

Definition env_zero_size : env :=
  {| flip_room := 4096; kzalloc_ok := true; buf_payload_size := 0;
     trysend_ret := 0 |}.

(** The state and the effects of a first successful probe, for device 7. *)
Definition probe_result (ke : kenv) (rpdev : Z) (k : kstate)
    : Z * kstate * list effect :=
  match rpmsg_tty_probe ke rpdev k with
  | Done r => r
  | Oops => (0, k, [])
  end.

Definition kstate_one : kstate := (probe_result kenv_ok 7 kstate_init).1.2.

Definition log_one : list effect := (probe_result kenv_ok 7 kstate_init).2.

Definition sample_calls : list kcall :=
  [Probe kenv_ok 7; Probe kenv_ok 8; Probe kenv_register_fails 9;
   Remove kenv_ok 7; Probe kenv_ok 10].

Definition kstate_sample : kstate :=
  match krun kstate_init sample_calls with
  | Done k => k
  | Oops => kstate_init
  end.

(** * Properties *)

(** ** Machine integers *)

Lemma u8_to_Z_range (b : u8) : 0 ≤ u8_to_Z b < 256.
Proof.
  unfold u8_to_Z. pose proof (Byte.to_N_bounded b). lia.
Qed.

Lemma int_of_id (z : Z) : INT_MIN ≤ z ≤ INT_MAX → int_of z = z.
Proof.
  unfold int_of, INT_MIN, INT_MAX. intros Hz.
  rewrite Z.mod_small; lia.
Qed.

Lemma uint_of_id (z : Z) : 0 ≤ z ≤ INT_MAX → uint_of z = z.
Proof.
  unfold uint_of, INT_MAX. intros Hz. rewrite Z.mod_small; lia.
Qed.

(** ** The dispatcher *)

Lemma rpmsg_tty_cb_short e cport data src :
  (length data ≤ 1)%nat → rpmsg_tty_cb e cport data src = rejected cport data.
Proof.
  intros Hlen. destruct data as [|cmd [|b payload]]; simpl in Hlen; try lia.
  - reflexivity.
  - reflexivity.
Qed.

Lemma rpmsg_tty_cb_bad_type e cport cmd payload src :
  NUM_RPMSG_TTY_TYPE ≤ u8_to_Z cmd →
  rpmsg_tty_cb e cport (cmd :: payload) src = rejected cport (cmd :: payload).
Proof.
  intros Hcmd. unfold rpmsg_tty_cb.
  destruct (Z.leb_spec NUM_RPMSG_TTY_TYPE (u8_to_Z cmd)); [|lia].
  rewrite orb_true_r. reflexivity.
Qed.

Lemma rpmsg_tty_handler_inv cmd :
  0 ≤ cmd < NUM_RPMSG_TTY_TYPE →
  (cmd = RPMSG_DATA ∧ rpmsg_tty_handler cmd = Some rpmsg_tty_data_handler)
  ∨ (cmd = RPMSG_CTRL ∧ rpmsg_tty_handler cmd = Some rpmsg_tty_ctrl_handler).
Proof.
  unfold NUM_RPMSG_TTY_TYPE, RPMSG_DATA, RPMSG_CTRL. intros Hcmd.
  assert (cmd = 0 ∨ cmd = 1) as [-> | ->] by lia; [left | right]; done.
Qed.

Lemma rpmsg_tty_cb_dispatch e cport cmd b payload src handler :
  rpmsg_tty_handler (u8_to_Z cmd) = Some handler →
  rpmsg_tty_cb e cport (cmd :: b :: payload) src
  = Done (0, (handler e cport (b :: payload) src).1,
             (handler e cport (b :: payload) src).2).
Proof.
  intros Hh. unfold rpmsg_tty_cb.
  assert (u8_to_Z cmd < NUM_RPMSG_TTY_TYPE) as Hcmd.
  { unfold rpmsg_tty_handler, RPMSG_DATA, RPMSG_CTRL, NUM_RPMSG_TTY_TYPE in *.
    repeat case_match; try done; lia. }
  destruct (Z.leb_spec (Z.of_nat (length (cmd :: b :: payload)))
              sizeof_rpmsg_tty_payload) as [Hlen|_].
  { unfold sizeof_rpmsg_tty_payload in Hlen. simpl length in Hlen. lia. }
  destruct (Z.leb_spec NUM_RPMSG_TTY_TYPE (u8_to_Z cmd)); [lia|].
  simpl orb. cbv iota. rewrite Hh.
  by destruct (handler e cport (b :: payload) src).
Qed.

(** The dispatcher never calls outside its handler table. *)
Lemma rpmsg_tty_cb_safe e cport data src : rpmsg_tty_cb e cport data src ≠ Oops.
Proof.
  destruct data as [|cmd [|b payload]]; [done | done |].
  destruct (Z.le_gt_cases NUM_RPMSG_TTY_TYPE (u8_to_Z cmd)) as [Hcmd|Hcmd].
  - by rewrite rpmsg_tty_cb_bad_type.
  - pose proof (u8_to_Z_range cmd).
    destruct (rpmsg_tty_handler_inv (u8_to_Z cmd)) as [[_ Hh]|[_ Hh]]; [lia | |];
      by rewrite (rpmsg_tty_cb_dispatch _ _ _ _ _ _ _ Hh).
Qed.

Lemma rpmsg_tty_ctrl_handler_short e cport data src :
  (length data ≤ 1)%nat →
  rpmsg_tty_ctrl_handler e cport data src
  = (cport, [dev_dbg (ctrl_received (head data)); print_hex_dump_debug data;
             dev_err ctrl_message_invalid]).
Proof.
  intros Hlen. destruct data as [|ctrl [|v0 more]]; simpl in Hlen; try lia; done.
Qed.

Lemma rpmsg_tty_ctrl_handler_long e cport ctrl v0 more src :
  rpmsg_tty_ctrl_handler e cport (ctrl :: v0 :: more) src
  = let log := [dev_dbg (ctrl_received (Some ctrl));
                print_hex_dump_debug (ctrl :: v0 :: more)] in
    if u8_to_Z ctrl =? DATA_TERM_READY then
      if u8_to_Z v0 =? 0 then (set_cts 0 cport, log)
      else (set_cts 1 cport, log ++ [tty_port_tty_wakeup])
    else (cport, log ++ [dev_err (unknown_control_ID ctrl)]).
Proof.
  unfold rpmsg_tty_ctrl_handler.
  destruct (Z.leb_spec (Z.of_nat (length (ctrl :: v0 :: more)))
              sizeof_rpmsg_tty_ctrl) as [Hlen|_]; [|done].
  unfold sizeof_rpmsg_tty_ctrl in Hlen. simpl length in Hlen. lia.
Qed.

(** ** Rejected frames *)

(** C3. The dispatcher rejects every message of length at most 1 and every
    message whose first byte is neither [RPMSG_DATA] nor [RPMSG_CTRL]: it
    returns [-EINVAL], leaves the port as it was and does nothing but log
    the error, so no handler runs. A control frame whose control byte is
    not [DATA_TERM_READY] is reported with [dev_err] by the control handler
    and leaves the port, and so its [cts] flag, unchanged. *)
Theorem malformed_frames_rejected e cport data src :
  ((length data ≤ 1)%nat
   ∨ (∃ cmd, head data = Some cmd
             ∧ u8_to_Z cmd ≠ RPMSG_DATA ∧ u8_to_Z cmd ≠ RPMSG_CTRL) →
   rpmsg_tty_cb e cport data src
   = Done (- EINVAL, cport,
           [dev_err (invalid_message (Z.of_nat (length data)) (head data))]))
  ∧ (∀ cmd ctrl values,
       data = cmd :: ctrl :: values →
       u8_to_Z cmd = RPMSG_CTRL → u8_to_Z ctrl ≠ DATA_TERM_READY →
       ∃ cport' log,
         rpmsg_tty_cb e cport data src = Done (0, cport', log)
         ∧ cport' = cport
         ∧ log = [dev_dbg (ctrl_received (Some ctrl));
                  print_hex_dump_debug (ctrl :: values);
                  dev_err (match values with
                           | [] => ctrl_message_invalid
                           | _ => unknown_control_ID ctrl
                           end)]).
Proof.
  split.
  - intros [Hlen | (cmd & Hhd & Hd & Hc)].
    + by apply rpmsg_tty_cb_short.
    + destruct data as [|cmd' payload]; simplify_eq/=.
      apply rpmsg_tty_cb_bad_type.
      pose proof (u8_to_Z_range cmd).
      unfold NUM_RPMSG_TTY_TYPE, RPMSG_DATA, RPMSG_CTRL in *. lia.
  - intros cmd ctrl values -> Hcmd Hctrl.
    assert (rpmsg_tty_handler (u8_to_Z cmd) = Some rpmsg_tty_ctrl_handler) as Hh.
    { by rewrite Hcmd. }
    rewrite (rpmsg_tty_cb_dispatch _ _ _ _ _ _ _ Hh).
    destruct values as [|v0 more].
    + rewrite rpmsg_tty_ctrl_handler_short by (simpl; lia). by eexists _, _.
    + rewrite rpmsg_tty_ctrl_handler_long. cbv zeta.
      destruct (Z.eqb_spec (u8_to_Z ctrl) DATA_TERM_READY); [done|].
      by eexists _, _.
Qed.

Lemma malformed_frames_rejected_witness :
  rpmsg_tty_cb env_ok ready_port [Byte.x02; Byte.x41] 0
  = Done (- EINVAL, ready_port,
          [dev_err (invalid_message 2 (Some Byte.x02))])
  ∧ ∃ cport' log,
      rpmsg_tty_cb env_ok ready_port [Byte.x01; Byte.x05; Byte.x00] 0
      = Done (0, cport', log)
      ∧ cport' = ready_port
      ∧ log = [dev_dbg (ctrl_received (Some Byte.x05));
               print_hex_dump_debug [Byte.x05; Byte.x00];
               dev_err (unknown_control_ID Byte.x05)].
Proof.
  split.
  - apply (proj1 (malformed_frames_rejected env_ok ready_port
                    [Byte.x02; Byte.x41] 0)).
    right. exists Byte.x02. repeat split; vm_compute; congruence.
  - apply (proj2 (malformed_frames_rejected env_ok ready_port
                    [Byte.x01; Byte.x05; Byte.x00] 0) Byte.x01 Byte.x05 [Byte.x00]).
    + reflexivity.
    + reflexivity.
    + vm_compute; congruence.
Defined.

(** ** Frames of length 1 and the lengths the dispatcher accepts *)

(** C4, as amended. A frame of total length 1 is rejected with [-EINVAL]
    whatever its tag, and nothing is delivered. The dispatcher accepts a
    frame (returns 0) exactly when its total length is at least 2 and its
    tag is [RPMSG_DATA] or [RPMSG_CTRL]. A control frame of total length 2
    is accepted by the dispatcher and dropped by the control handler with
    an error message and no change of the port. *)
Theorem frame_accepted_from_length_two e cport data src :
  (length data = 1%nat →
   rpmsg_tty_cb e cport data src
   = Done (- EINVAL, cport, [dev_err (invalid_message 1 (head data))]))
  ∧ (∃ ret cport' log,
       rpmsg_tty_cb e cport data src = Done (ret, cport', log)
       ∧ (ret = 0 ∨ ret = - EINVAL)
       ∧ (ret = 0 ↔
          (2 ≤ length data)%nat
          ∧ ∃ cmd, head data = Some cmd
                   ∧ (u8_to_Z cmd = RPMSG_DATA ∨ u8_to_Z cmd = RPMSG_CTRL)))
  ∧ (∀ cmd ctrl,
       data = [cmd; ctrl] → u8_to_Z cmd = RPMSG_CTRL →
       rpmsg_tty_cb e cport data src
       = Done (0, cport, [dev_dbg (ctrl_received (Some ctrl));
                          print_hex_dump_debug [ctrl];
                          dev_err ctrl_message_invalid])).
Proof.
  split; [|split].
  - intros Hlen. rewrite rpmsg_tty_cb_short by lia. unfold rejected.
    by rewrite Hlen.
  - destruct data as [|cmd [|b payload]].
    + eexists _, _, _. split; [reflexivity|]. split; [by right|].
      split; [done|]. simpl. lia.
    + eexists _, _, _. split; [reflexivity|]. split; [by right|].
      split; [done|]. simpl. lia.
    + pose proof (u8_to_Z_range cmd).
      destruct (Z.le_gt_cases NUM_RPMSG_TTY_TYPE (u8_to_Z cmd)) as [Hcmd|Hcmd].
      * rewrite rpmsg_tty_cb_bad_type by done.
        eexists _, _, _. split; [reflexivity|]. split; [by right|].
        split; [done|]. intros (_ & cmd' & Hhd & Hc). simplify_eq/=.
        unfold NUM_RPMSG_TTY_TYPE, RPMSG_DATA, RPMSG_CTRL in *. lia.
      * destruct (rpmsg_tty_handler_inv (u8_to_Z cmd)) as [[Hc Hh]|[Hc Hh]];
          [lia| |]; rewrite (rpmsg_tty_cb_dispatch _ _ _ _ _ _ _ Hh);
          eexists _, _, _; (split; [reflexivity|]); (split; [by left|]);
          (split; [intros _|done]); (split; [simpl; lia|]);
          exists cmd; auto.
  - intros cmd ctrl -> Hcmd.
    assert (rpmsg_tty_handler (u8_to_Z cmd) = Some rpmsg_tty_ctrl_handler) as Hh.
    { by rewrite Hcmd. }
    by rewrite (rpmsg_tty_cb_dispatch _ _ _ _ _ _ _ Hh).
Qed.

Lemma frame_accepted_from_length_two_witness :
  rpmsg_tty_cb env_ok ready_port [Byte.x01] 0
  = Done (- EINVAL, ready_port, [dev_err (invalid_message 1 (Some Byte.x01))])
  ∧ rpmsg_tty_cb env_ok ready_port [Byte.x01; Byte.x00] 0
    = Done (0, ready_port, [dev_dbg (ctrl_received (Some Byte.x00));
                            print_hex_dump_debug [Byte.x00];
                            dev_err ctrl_message_invalid]).
Proof.
  split.
  - apply (proj1 (frame_accepted_from_length_two env_ok ready_port
                    [Byte.x01] 0)).
    reflexivity.
  - apply (proj2 (proj2 (frame_accepted_from_length_two env_ok ready_port
                           [Byte.x01; Byte.x00] 0)) Byte.x01 Byte.x00).
    + reflexivity.
    + reflexivity.
Defined.

(** C4, as stated, fails: a frame of total length 1 with the data tag is
    not accepted as an empty data frame, the dispatcher returns [-EINVAL]. *)
Lemma one_byte_data_frame_rejected :
  rpmsg_tty_cb env_ok ready_port [u8_of_Z RPMSG_DATA] 0
  = Done (- EINVAL, ready_port,
          [dev_err (invalid_message 1 (Some (u8_of_Z RPMSG_DATA)))])
  ∧ - EINVAL < 0.
Proof. split; [reflexivity | done]. Qed.

(** ** What the handlers receive *)

Lemma rpmsg_tty_data_handler_nonempty e cport b payload src :
  rpmsg_tty_data_handler e cport (b :: payload) src
  = let data := b :: payload in
    let len := Z.of_nat (length data) in
    let copied := Z.max 0 (Z.min len (flip_room e)) in
    (set_port {| rx := rx (port cport) ++ take (Z.to_nat copied) data |} cport,
     [dev_dbg (msg_rx src len)]
       ++ [tty_insert_flip_string_fixed_flag data copied]
       ++ (if copied =? len then [] else [dev_dbg (trunc_buffer copied)])
       ++ [tty_flip_buffer_push]).
Proof.
  unfold rpmsg_tty_data_handler.
  destruct (Z.eqb_spec (Z.of_nat (length (b :: payload))) 0) as [Hlen|_];
    [|done].
  simpl length in Hlen. lia.
Qed.

(** C10. When the dispatcher accepts a message (length above 1, tag below
    [NUM_RPMSG_TTY_TYPE]) it calls the handler of the tag on the bytes after
    the tag, at least one byte. So the data handler, called from the
    dispatcher, never takes its return for an empty payload: it inserts the
    payload in the flip buffer and pushes it. *)
Theorem dispatched_payload_nonempty e cport data src cmd :
  (1 < length data)%nat →
  head data = Some cmd →
  u8_to_Z cmd < NUM_RPMSG_TTY_TYPE →
  ∃ handler payload,
    rpmsg_tty_handler (u8_to_Z cmd) = Some handler
    ∧ data = cmd :: payload
    ∧ (1 ≤ length payload)%nat
    ∧ rpmsg_tty_cb e cport data src
      = Done (0, (handler e cport payload src).1, (handler e cport payload src).2)
    ∧ (u8_to_Z cmd = RPMSG_DATA →
       (handler e cport payload src).2
       ≠ (rpmsg_tty_data_handler e cport [] src).2
       ∧ ∃ copied,
           tty_insert_flip_string_fixed_flag payload copied
             ∈ (handler e cport payload src).2
           ∧ tty_flip_buffer_push ∈ (handler e cport payload src).2).
Proof.
  intros Hlen Hhd Hcmd.
  destruct data as [|cmd' [|b payload]]; simpl in Hlen; try lia.
  simplify_eq/=. pose proof (u8_to_Z_range cmd).
  destruct (rpmsg_tty_handler_inv (u8_to_Z cmd)) as [[Hc Hh]|[Hc Hh]]; [lia| |].
  - exists rpmsg_tty_data_handler, (b :: payload).
    split; [done|]. split; [done|]. split; [simpl; lia|].
    split; [by apply rpmsg_tty_cb_dispatch|]. intros _.
    rewrite rpmsg_tty_data_handler_nonempty. cbv zeta. split.
    + simpl. intros Heq. simplify_eq.
    + eexists. split.
      * simpl. apply list_elem_of_further, list_elem_of_here.
      * simpl. apply list_elem_of_further, list_elem_of_further.
        apply elem_of_app. right. apply list_elem_of_here.
  - exists rpmsg_tty_ctrl_handler, (b :: payload).
    split; [done|]. split; [done|]. split; [simpl; lia|].
    split; [by apply rpmsg_tty_cb_dispatch|].
    unfold RPMSG_DATA, RPMSG_CTRL in *. lia.
Qed.

Lemma dispatched_payload_nonempty_witness :
  ∃ handler payload,
    rpmsg_tty_handler (u8_to_Z Byte.x00) = Some handler
    ∧ [Byte.x00; Byte.x41; Byte.x42] = Byte.x00 :: payload
    ∧ (1 ≤ length payload)%nat
    ∧ rpmsg_tty_cb env_ok ready_port [Byte.x00; Byte.x41; Byte.x42] 7
      = Done (0, (handler env_ok ready_port payload 7).1,
                 (handler env_ok ready_port payload 7).2)
    ∧ (u8_to_Z Byte.x00 = RPMSG_DATA →
       (handler env_ok ready_port payload 7).2
       ≠ (rpmsg_tty_data_handler env_ok ready_port [] 7).2
       ∧ ∃ copied,
           tty_insert_flip_string_fixed_flag payload copied
             ∈ (handler env_ok ready_port payload 7).2
           ∧ tty_flip_buffer_push ∈ (handler env_ok ready_port payload 7).2).
Proof.
  apply (dispatched_payload_nonempty env_ok ready_port
           [Byte.x00; Byte.x41; Byte.x42] 7 Byte.x00).
  - simpl. lia.
  - reflexivity.
  - reflexivity.
Defined.

(** ** The flow-control flag *)

Lemma run_app cport evs1 evs2 :
  run cport (evs1 ++ evs2)
  = match run cport evs1 with
    | Done cport1 => run cport1 evs2
    | Oops => Oops
    end.
Proof.
  revert cport. induction evs1 as [|[e ev] evs1 IH]; intros cport; [done|].
  simpl. destruct (step e cport ev) as [[[ret cport'] log]|]; [apply IH | done].
Qed.

Lemma rpmsg_tty_cb_terminal_ready e cport v more src :
  rpmsg_tty_cb e cport (terminal_ready_frame v more) src
  = Done (0, set_cts (if u8_to_Z v =? 0 then 0 else 1) cport,
          [dev_dbg (ctrl_received (Some (u8_of_Z DATA_TERM_READY)));
           print_hex_dump_debug (u8_of_Z DATA_TERM_READY :: v :: more)]
            ++ (if u8_to_Z v =? 0 then [] else [tty_port_tty_wakeup])).
Proof.
  unfold terminal_ready_frame.
  rewrite (rpmsg_tty_cb_dispatch _ _ _ _ _ _ rpmsg_tty_ctrl_handler) by done.
  rewrite rpmsg_tty_ctrl_handler_long. cbv zeta.
  change (u8_to_Z (u8_of_Z DATA_TERM_READY) =? DATA_TERM_READY) with true.
  cbv iota. by destruct (u8_to_Z v =? 0).
Qed.

Lemma run_cons cport e ev evs :
  run cport ((e, ev) :: evs)
  = match step e cport ev with
    | Done (_, cport', _) => run cport' evs
    | Oops => Oops
    end.
Proof. reflexivity. Qed.

Lemma step_terminal_ready cport (u : terminal_ready) :
  step (tr_env u) cport
    (Cb (terminal_ready_frame (tr_value u) (tr_more u)) (tr_src u))
  = Done (0, set_cts (if u8_to_Z (tr_value u) =? 0 then 0 else 1) cport,
          [dev_dbg (ctrl_received (Some (u8_of_Z DATA_TERM_READY)));
           print_hex_dump_debug
             (u8_of_Z DATA_TERM_READY :: tr_value u :: tr_more u)]
            ++ (if u8_to_Z (tr_value u) =? 0 then []
                else [tty_port_tty_wakeup])).
Proof. apply rpmsg_tty_cb_terminal_ready. Qed.

Lemma run_terminal_ready cport (us : list terminal_ready) :
  ∃ cport', run cport (terminal_ready_event <$> us) = Done cport'.
Proof.
  revert cport. induction us as [|u us IH]; intros cport; [by eexists|].
  rewrite fmap_cons. unfold terminal_ready_event at 1.
  rewrite run_cons. rewrite (step_terminal_ready cport u). apply IH.
Qed.

(** C2. After any sequence of inbound [DATA_TERM_READY] control frames,
    [cts] is the truth value of the value byte of the last frame applied
    (1 for a nonzero byte, 0 for a zero byte), whatever came before; and
    the frame makes the driver call [tty_port_tty_wakeup] exactly when its
    value byte is nonzero. *)
Theorem terminal_ready_last_write_wins cport (before : list terminal_ready)
    (u : terminal_ready) :
  ∃ cport1 cport2 log,
    run cport (terminal_ready_event <$> before) = Done cport1
    ∧ step (tr_env u) cport1
        (Cb (terminal_ready_frame (tr_value u) (tr_more u)) (tr_src u))
      = Done (0, cport2, log)
    ∧ run cport (terminal_ready_event <$> (before ++ [u])) = Done cport2
    ∧ cts cport2 = (if u8_to_Z (tr_value u) =? 0 then 0 else 1)
    ∧ log = [dev_dbg (ctrl_received (Some (u8_of_Z DATA_TERM_READY)));
             print_hex_dump_debug
               (u8_of_Z DATA_TERM_READY :: tr_value u :: tr_more u)]
              ++ (if u8_to_Z (tr_value u) =? 0 then []
                  else [tty_port_tty_wakeup]).
Proof.
  destruct (run_terminal_ready cport before) as [cport1 Hrun].
  exists cport1. eexists _, _. split; [done|].
  split; [apply step_terminal_ready|].
  split; [|split; [done|done]].
  rewrite fmap_app, run_app, Hrun. rewrite fmap_cons, fmap_nil.
  unfold terminal_ready_event at 1.
  by rewrite run_cons, (step_terminal_ready cport1 u).
Qed.


Lemma rpmsg_tty_data_handler_cts e cport data src :
  cts (rpmsg_tty_data_handler e cport data src).1 = cts cport.
Proof.
  unfold rpmsg_tty_data_handler. by case_match.
Qed.

Lemma rpmsg_tty_data_handler_rpdev e cport data src :
  rpdev (rpmsg_tty_data_handler e cport data src).1 = rpdev cport.
Proof.
  unfold rpmsg_tty_data_handler. by case_match.
Qed.

Lemma rpmsg_tty_ctrl_handler_rpdev e cport data src :
  rpdev (rpmsg_tty_ctrl_handler e cport data src).1 = rpdev cport.
Proof.
  destruct data as [|ctrl [|v0 more]].
  - by rewrite rpmsg_tty_ctrl_handler_short by (simpl; lia).
  - by rewrite rpmsg_tty_ctrl_handler_short by (simpl; lia).
  - rewrite rpmsg_tty_ctrl_handler_long. cbv zeta.
    destruct (u8_to_Z ctrl =? DATA_TERM_READY); [|done].
    by destruct (u8_to_Z v0 =? 0).
Qed.

(** A control message on a port attached to its device. *)
Lemma rpmsg_tty_write_control_attached e cport ctrl values :
  is_Some (rpdev cport) →
  rpmsg_tty_write_control e cport ctrl values
  = if kzalloc_ok e then
      Done (Z.max 0 (trysend_ret e),
            rpmsg_trysend
              (u8_of_Z RPMSG_CTRL :: u8_of_Z DATA_TERM_READY :: values)
              (trysend_ret e)
            :: (if trysend_ret e <? 0
                then [dev_dbg (cannot_send_control (trysend_ret e))] else []))
    else Done (- ENOMEM, []).
Proof.
  intros [r Hr]. unfold rpmsg_tty_write_control. rewrite Hr.
  destruct (kzalloc_ok e); [|done]. simpl negb. cbv iota zeta.
  destruct (Z.ltb_spec (trysend_ret e) 0).
  - by rewrite Z.max_l by lia.
  - by rewrite Z.max_r by lia.
Qed.

(** While the flag is down, a call on an attached port that carries no
    nonzero terminal-ready update returns, leaves the flag down and the
    port attached, and sends nothing if it is a write. *)
Lemma step_blocked e cport ev :
  cts cport = 0 → is_Some (rpdev cport) → raises_ready ev = false →
  ∃ ret cport' log,
    step e cport ev = Done (ret, cport', log)
    ∧ cts cport' = 0
    ∧ rpdev cport' = rpdev cport
    ∧ (∀ buf, ev = Write buf → ret = 0 ∧ log = []).
Proof.
  intros Hcts Hdev Hev. destruct ev as [data src|buf| | | |raise]; cbn [step].
  - destruct data as [|cmd [|b payload]].
    + eexists _, _, _. by split; [reflexivity|].
    + eexists _, _, _. by split; [reflexivity|].
    + pose proof (u8_to_Z_range cmd).
      destruct (Z.le_gt_cases NUM_RPMSG_TTY_TYPE (u8_to_Z cmd)) as [Hcmd|Hcmd].
      { rewrite rpmsg_tty_cb_bad_type by done.
        eexists _, _, _. by split; [reflexivity|]. }
      destruct (rpmsg_tty_handler_inv (u8_to_Z cmd)) as [[Hc Hh]|[Hc Hh]];
        [lia| |]; rewrite (rpmsg_tty_cb_dispatch _ _ _ _ _ _ _ Hh);
        eexists _, _, _; (split; [reflexivity|]); cbn [fst snd].
      * rewrite rpmsg_tty_data_handler_cts, rpmsg_tty_data_handler_rpdev.
        done.
      * rewrite rpmsg_tty_ctrl_handler_rpdev. split; [|done].
        destruct payload as [|v0 more].
        { by rewrite rpmsg_tty_ctrl_handler_short by (simpl; lia). }
        rewrite rpmsg_tty_ctrl_handler_long. cbv zeta.
        unfold raises_ready, terminal_ready_update in Hev.
        rewrite Hc in Hev. change (RPMSG_CTRL =? RPMSG_CTRL) with true in Hev.
        simpl andb in Hev.
        destruct (u8_to_Z b =? DATA_TERM_READY); [|done].
        by destruct (u8_to_Z v0 =? 0).
  - unfold rpmsg_tty_write. rewrite Hcts. simpl.
    eexists _, _, _. split; [reflexivity|]. by repeat split.
  - unfold rpmsg_tty_write_room. rewrite Hcts. simpl.
    eexists _, _, _. by split; [reflexivity|].
  - unfold rpmsg_tty_throttle.
    rewrite rpmsg_tty_write_control_attached by done.
    destruct (kzalloc_ok e); eexists _, _, _; by split; [reflexivity|].
  - unfold rpmsg_tty_unthrottle.
    rewrite rpmsg_tty_write_control_attached by done.
    destruct (kzalloc_ok e); eexists _, _, _; by split; [reflexivity|].
  - unfold raises_ready, terminal_ready_update in Hev.
    apply negb_false_iff, Z.eqb_eq in Hev. subst raise.
    unfold rpmsg_tty_dtr_rts. simpl negb. cbv iota zeta.
    unfold rpmsg_tty_throttle.
    rewrite rpmsg_tty_write_control_attached by done.
    destruct (kzalloc_ok e); eexists _, _, _; by split; [reflexivity|].
Qed.

Lemma run_blocked cport evs :
  cts cport = 0 → is_Some (rpdev cport) →
  Forall (λ x, raises_ready x.2 = false) evs →
  ∃ cport', run cport evs = Done cport' ∧ cts cport' = 0
            ∧ rpdev cport' = rpdev cport.
Proof.
  intros Hcts Hdev Hevs. revert cport Hcts Hdev.
  induction Hevs as [|[e ev] evs Hev _ IH]; intros cport Hcts Hdev;
    [by eexists|].
  destruct (step_blocked e cport ev Hcts Hdev Hev)
    as (ret & cport1 & log & Hs & Hc & Hd & _).
  rewrite run_cons, Hs.
  destruct (IH cport1 Hc) as (cport' & Hrun & Hc' & Hd'); [by rewrite Hd|].
  exists cport'. split; [done|]. split; [done|]. by rewrite Hd', Hd.
Qed.

(** ** The transmit path *)

(** A write that gets as far as the send: the flag is up, the port is
    attached, the endpoint advertises at least one byte, and memory is
    available. *)
Lemma rpmsg_tty_write_sends e cport buf :
  cts cport ≠ 0 → is_Some (rpdev cport) →
  1 ≤ buf_payload_size e → kzalloc_ok e = true →
  Z.of_nat (length buf) < INT_MAX →
  rpmsg_tty_write e cport buf
  = let len := Z.of_nat (length buf) in
    let n := Z.min len (buf_payload_size e - sizeof_rpmsg_tty_payload) in
    let frame := u8_of_Z RPMSG_DATA :: take (Z.to_nat n) buf in
    let ret := trysend_ret e in
    if ret =? 0 then
      Done (n, [dev_dbg (send_msg len); rpmsg_trysend frame ret])
    else
      Done (0, [dev_dbg (send_msg len); rpmsg_trysend frame ret;
                dev_dbg (rpmsg_send_failed ret)]).
Proof.
  intros Hcts [r Hr] Hmax Hmem Hlen. unfold rpmsg_tty_write. cbv zeta.
  destruct (Z.eqb_spec (cts cport) 0); [done|]. rewrite Hr.
  destruct (Z.ltb_spec (buf_payload_size e) 0); [lia|].
  unfold sizeof_rpmsg_tty_payload.
  rewrite (int_of_id (Z.of_nat (length buf) + 1))
    by (unfold INT_MIN, INT_MAX in *; lia).
  rewrite (uint_of_id (Z.min _ _)) by (unfold INT_MAX in *; lia).
  replace (Z.min (Z.of_nat (length buf) + 1) (buf_payload_size e) - 1)
    with (Z.min (Z.of_nat (length buf)) (buf_payload_size e - 1)) by lia.
  rewrite uint_of_id by (unfold INT_MAX in *; lia).
  rewrite int_of_id by (unfold INT_MIN, INT_MAX in *; lia).
  destruct (Z.eqb_spec (Z.min (Z.of_nat (length buf) + 1) (buf_payload_size e)) 0);
    [lia|].
  rewrite Hmem. simpl negb. cbv iota.
  by destruct (trysend_ret e =? 0).
Qed.



(** C6. When [rpmsg_trysend] refuses the frame (a negative return), on a
    port attached to its device: a write whose frame was handed to it (flag
    up, a buffer size of at least 1, memory available) returns 0, not the
    error; and [rpmsg_tty_write_control], whatever the flag and the buffer
    size, returns 0 as well. In both the error is logged and dropped. *)
Theorem send_rejected_returns_zero :
  (∀ e cport buf,
     trysend_ret e < 0 →
     cts cport ≠ 0 → is_Some (rpdev cport) →
     1 ≤ buf_payload_size e → kzalloc_ok e = true →
     Z.of_nat (length buf) < INT_MAX →
     ∃ frame,
       rpmsg_tty_write e cport buf
       = Done (0, [dev_dbg (send_msg (Z.of_nat (length buf)));
                   rpmsg_trysend frame (trysend_ret e);
                   dev_dbg (rpmsg_send_failed (trysend_ret e))]))
  ∧ (∀ e cport ctrl values,
       trysend_ret e < 0 →
       is_Some (rpdev cport) → kzalloc_ok e = true →
       rpmsg_tty_write_control e cport ctrl values
       = Done (0, [rpmsg_trysend
                     (u8_of_Z RPMSG_CTRL :: u8_of_Z DATA_TERM_READY :: values)
                     (trysend_ret e);
                   dev_dbg (cannot_send_control (trysend_ret e))])).
Proof.
  split.
  - intros e cport buf Hret Hcts Hdev Hmax Hmem Hlen.
    rewrite rpmsg_tty_write_sends by done. cbv zeta.
    destruct (Z.eqb_spec (trysend_ret e) 0); [lia|]. by eexists.
  - intros e cport ctrl values Hret Hdev Hmem.
    rewrite rpmsg_tty_write_control_attached by done. rewrite Hmem.
    destruct (Z.ltb_spec (trysend_ret e) 0); [|lia].
    by rewrite Z.max_l by lia.
Qed.

Lemma send_rejected_returns_zero_witness :
  (∃ frame,
     rpmsg_tty_write env_busy attached_ready_port [Byte.x41; Byte.x42]
     = Done (0, [dev_dbg (send_msg 2);
                 rpmsg_trysend frame (- ENOMEM);
                 dev_dbg (rpmsg_send_failed (- ENOMEM))]))
  ∧ rpmsg_tty_write_control env_busy attached_port DATA_TERM_READY [Byte.x00]
    = Done (0, [rpmsg_trysend [Byte.x01; Byte.x00; Byte.x00] (- ENOMEM);
                dev_dbg (cannot_send_control (- ENOMEM))]).
Proof.
  split.
  - apply (proj1 send_rejected_returns_zero env_busy attached_ready_port
             [Byte.x41; Byte.x42]).
    + reflexivity.
    + vm_compute. congruence.
    + by eexists.
    + vm_compute. congruence.
    + reflexivity.
    + reflexivity.
  - apply (proj2 send_rejected_returns_zero env_busy attached_port
             DATA_TERM_READY [Byte.x00]).
    + reflexivity.
    + by eexists.
    + reflexivity.
Defined.

(** ** Encoding and decoding of frames *)

(** C5, as amended. On a port attached to its device: the frame
    [rpmsg_tty_write] hands to the endpoint for a non-empty payload that
    fits with its tag in the buffer size is the tag followed by the payload,
    and the dispatcher of a peer, given that frame, calls the data handler on
    exactly that payload. The frame of [rpmsg_tty_write_control] for a value
    array of at least one byte is the control tag, [DATA_TERM_READY]
    (whatever control kind was asked for) and the values; the dispatcher of
    a peer calls the control handler on the bytes after the tag, and the
    handler reads the first value byte back into the peer's flag. For a data
    payload that does not fit with its tag in a buffer size of at least 1,
    the frame carries the first (size - 1) bytes of the payload and a write
    whose send succeeds returns that count. *)
Theorem frame_round_trip :
  (∀ e cport buf e' peer src,
     cts cport ≠ 0 → is_Some (rpdev cport) → kzalloc_ok e = true →
     Z.of_nat (length buf) < INT_MAX →
     buf ≠ [] →
     Z.of_nat (length buf) + sizeof_rpmsg_tty_payload ≤ buf_payload_size e →
     ∃ log,
       rpmsg_tty_write e cport buf
       = Done (if trysend_ret e =? 0 then Z.of_nat (length buf) else 0, log)
       ∧ rpmsg_trysend (u8_of_Z RPMSG_DATA :: buf) (trysend_ret e) ∈ log
       ∧ rpmsg_tty_cb e' peer (u8_of_Z RPMSG_DATA :: buf) src
         = Done (0, (rpmsg_tty_data_handler e' peer buf src).1,
                    (rpmsg_tty_data_handler e' peer buf src).2))
  ∧ (∀ e cport ctrl v more e' peer src,
       is_Some (rpdev cport) → kzalloc_ok e = true →
       let values := v :: more in
       let frame := u8_of_Z RPMSG_CTRL :: u8_of_Z DATA_TERM_READY :: values in
       ∃ r log,
         rpmsg_tty_write_control e cport ctrl values = Done (r, log)
         ∧ rpmsg_trysend frame (trysend_ret e) ∈ log
         ∧ rpmsg_tty_cb e' peer frame src
           = Done (0,
               (rpmsg_tty_ctrl_handler e' peer
                  (u8_of_Z DATA_TERM_READY :: values) src).1,
               (rpmsg_tty_ctrl_handler e' peer
                  (u8_of_Z DATA_TERM_READY :: values) src).2)
         ∧ (rpmsg_tty_ctrl_handler e' peer
              (u8_of_Z DATA_TERM_READY :: values) src).1
           = set_cts (if u8_to_Z v =? 0 then 0 else 1) peer)
  ∧ (∀ e cport buf,
       cts cport ≠ 0 → is_Some (rpdev cport) → kzalloc_ok e = true →
       Z.of_nat (length buf) < INT_MAX →
       1 ≤ buf_payload_size e →
       buf_payload_size e < Z.of_nat (length buf) + sizeof_rpmsg_tty_payload →
       trysend_ret e = 0 →
       let sent :=
         take (Z.to_nat (buf_payload_size e - sizeof_rpmsg_tty_payload)) buf in
       rpmsg_tty_write e cport buf
       = Done (buf_payload_size e - sizeof_rpmsg_tty_payload,
               [dev_dbg (send_msg (Z.of_nat (length buf)));
                rpmsg_trysend (u8_of_Z RPMSG_DATA :: sent) 0])
       ∧ Z.of_nat (length sent) = buf_payload_size e - sizeof_rpmsg_tty_payload).
Proof.
  unfold sizeof_rpmsg_tty_payload. split; [|split].
  - intros e cport buf e' peer src Hcts Hdev Hmem Hlen Hbuf Hfit.
    rewrite rpmsg_tty_write_sends by (done || lia). cbv zeta.
    unfold sizeof_rpmsg_tty_payload.
    rewrite Z.min_l by lia. rewrite Nat2Z.id, firstn_all.
    destruct buf as [|b payload]; [done|].
    rewrite (rpmsg_tty_cb_dispatch _ _ _ _ _ _ rpmsg_tty_data_handler) by done.
    destruct (trysend_ret e =? 0); eexists; (split; [reflexivity|]);
      (split; [|done]); apply list_elem_of_further, list_elem_of_here.
  - intros e cport ctrl v more e' peer src Hdev Hmem. cbv zeta.
    rewrite (rpmsg_tty_cb_dispatch _ _ _ _ _ _ rpmsg_tty_ctrl_handler) by done.
    rewrite rpmsg_tty_write_control_attached by done. rewrite Hmem.
    eexists _, _. split; [reflexivity|].
    split; [apply list_elem_of_here|]. split; [done|].
    rewrite rpmsg_tty_ctrl_handler_long. cbv zeta.
    change (u8_to_Z (u8_of_Z DATA_TERM_READY) =? DATA_TERM_READY) with true.
    cbv iota. by destruct (u8_to_Z v =? 0).
  - intros e cport buf Hcts Hdev Hmem Hlen Hmax Hbig Hret.
    rewrite rpmsg_tty_write_sends by done. cbv zeta.
    unfold sizeof_rpmsg_tty_payload. rewrite Hret. simpl.
    rewrite Z.min_r by lia. split; [done|].
    rewrite length_take. lia.
Qed.

Lemma frame_round_trip_witness :
  (∃ log,
     rpmsg_tty_write env_small attached_ready_port [Byte.x41; Byte.x42]
     = Done (2, log)
     ∧ rpmsg_trysend [Byte.x00; Byte.x41; Byte.x42] 0 ∈ log
     ∧ rpmsg_tty_cb env_ok attached_port [Byte.x00; Byte.x41; Byte.x42] 0
       = Done (0,
           (rpmsg_tty_data_handler env_ok attached_port
              [Byte.x41; Byte.x42] 0).1,
           (rpmsg_tty_data_handler env_ok attached_port
              [Byte.x41; Byte.x42] 0).2))
  ∧ (∃ r log,
       rpmsg_tty_write_control env_ok attached_port DATA_TERM_READY [Byte.x01]
       = Done (r, log)
       ∧ rpmsg_trysend [Byte.x01; Byte.x00; Byte.x01] 0 ∈ log
       ∧ rpmsg_tty_cb env_ok attached_port [Byte.x01; Byte.x00; Byte.x01] 0
         = Done (0,
             (rpmsg_tty_ctrl_handler env_ok attached_port
                [Byte.x00; Byte.x01] 0).1,
             (rpmsg_tty_ctrl_handler env_ok attached_port
                [Byte.x00; Byte.x01] 0).2)
       ∧ (rpmsg_tty_ctrl_handler env_ok attached_port
            [Byte.x00; Byte.x01] 0).1
         = set_cts 1 attached_port)
  ∧ (rpmsg_tty_write env_small attached_ready_port
       [Byte.x41; Byte.x42; Byte.x43; Byte.x44; Byte.x45]
     = Done (3, [dev_dbg (send_msg 5);
                 rpmsg_trysend [Byte.x00; Byte.x41; Byte.x42; Byte.x43] 0])
     ∧ Z.of_nat (length [Byte.x41; Byte.x42; Byte.x43]) = 3).
Proof.
  destruct frame_round_trip as (Hdata & Hctrl & Htrunc).
  split; [|split].
  - apply (Hdata env_small attached_ready_port [Byte.x41; Byte.x42]
             env_ok attached_port 0).
    + vm_compute. congruence.
    + by eexists.
    + reflexivity.
    + reflexivity.
    + congruence.
    + vm_compute. congruence.
  - apply (Hctrl env_ok attached_port DATA_TERM_READY Byte.x01 []
             env_ok attached_port 0).
    + by eexists.
    + reflexivity.
  - apply (Htrunc env_small attached_ready_port
             [Byte.x41; Byte.x42; Byte.x43; Byte.x44; Byte.x45]).
    + vm_compute. congruence.
    + by eexists.
    + reflexivity.
    + reflexivity.
    + vm_compute. congruence.
    + reflexivity.
    + reflexivity.
Defined.

(** C5, as stated, fails, on a port attached to its device with the flag
    up. For the empty data payload the write sends the one-byte frame that
    holds the tag alone, which fits the buffer size, and the dispatcher
    rejects that frame instead of giving back an empty data payload. For a
    control payload with no value byte the frame is the two header bytes,
    which the dispatcher passes on and the control handler drops as
    invalid; and a control kind other than [DATA_TERM_READY] does not reach
    the frame. *)
Lemma empty_data_payload_not_decoded :
  (rpmsg_tty_write env_ok attached_ready_port []
   = Done (0, [dev_dbg (send_msg 0); rpmsg_trysend [u8_of_Z RPMSG_DATA] 0])
   ∧ rpmsg_tty_cb env_ok attached_port [u8_of_Z RPMSG_DATA] 0
     = Done (- EINVAL, attached_port,
             [dev_err (invalid_message 1 (Some (u8_of_Z RPMSG_DATA)))]))
  ∧ (rpmsg_tty_write_control env_ok attached_ready_port 5 []
     = Done (0, [rpmsg_trysend
                   [u8_of_Z RPMSG_CTRL; u8_of_Z DATA_TERM_READY] 0])
     ∧ rpmsg_tty_cb env_ok attached_port
         [u8_of_Z RPMSG_CTRL; u8_of_Z DATA_TERM_READY] 0
       = Done (0, attached_port,
               [dev_dbg (ctrl_received (Some (u8_of_Z DATA_TERM_READY)));
                print_hex_dump_debug [u8_of_Z DATA_TERM_READY];
                dev_err ctrl_message_invalid])).
Proof. repeat split; reflexivity. Qed.

(** ** The registry *)

Lemma kzalloc_fresh k : heap k !! (kzalloc k).1 = None.
Proof.
  unfold kzalloc. simpl. apply not_elem_of_dom, is_fresh.
Qed.

Lemma rpmsg_tty_alloc_cport_PTR e k p k' :
  rpmsg_tty_alloc_cport e k = (PTR p, k') →
  ∃ i, 0 ≤ i ∧ p = (kzalloc k).1
       ∧ idr_alloc (tty_idr k) p 0 MAX_TTY_RPMSG (idr_mem e)
         = (i, tty_idr k')
       ∧ heap k' = <[p := set_id i zeroed]> (heap k)
       ∧ drvdata k' = drvdata k.
Proof.
  unfold rpmsg_tty_alloc_cport. destruct (cport_mem e); simpl; [|done].
  destruct (idr_alloc _ _ _ _ _) as [i idr'] eqn:Hidr.
  destruct (Z.ltb_spec i 0); [done|]. intros [= <- <-].
  exists i. simpl. split; [lia|]. split; [done|]. split; [done|].
  split; [|done]. by rewrite insert_insert_eq.
Qed.

Lemma kstate_eq k1 k2 :
  tty_idr k1 = tty_idr k2 → heap k1 = heap k2 → drvdata k1 = drvdata k2 →
  k1 = k2.
Proof. destruct k1, k2. simpl. by intros -> -> ->. Qed.

Lemma idr_alloc_found idr ptr n mem i idr' :
  idr_alloc idr ptr 0 n mem = (i, idr') → 0 ≤ i →
  i < n ∧ idr !! i = None
  ∧ (∀ j, 0 ≤ j < i → is_Some (idr !! j))
  ∧ idr' = <[i := ptr]> idr.
Proof.
  unfold idr_alloc. destruct mem; simpl.
  2:{ intros [= <- <-]. unfold ENOMEM. lia. }
  destruct (list_find _ _) as [[n0 x]|] eqn:Hfind.
  2:{ intros [= <- <-]. unfold ENOSPC. lia. }
  intros [= <- <-] _.
  apply list_find_Some in Hfind as (Hl & Hfree & Hmin).
  apply lookup_seqZ in Hl as [-> Hn0].
  split; [lia|]. split; [done|]. split; [|done].
  intros j Hj. destruct (idr !! j) eqn:Hidr; [by eexists|].
  exfalso. apply (Hmin (Z.to_nat j) j); [|lia|done].
  apply lookup_seqZ. lia.
Qed.

Lemma idr_alloc_free idr ptr n j :
  0 ≤ j < n → idr !! j = None →
  ∃ i, 0 ≤ i ≤ j ∧ idr_alloc idr ptr 0 n true = (i, <[i := ptr]> idr).
Proof.
  intros Hj Hfree. unfold idr_alloc. simpl.
  destruct (list_find _ _) as [[n0 x]|] eqn:Hfind.
  - apply list_find_Some in Hfind as (Hl & _ & Hmin).
    apply lookup_seqZ in Hl as [-> Hn0].
    exists (0 + Z.of_nat n0). split; [|done]. split; [lia|].
    destruct (Z.le_gt_cases (0 + Z.of_nat n0) j) as [|Hlt]; [done|].
    exfalso. apply (Hmin (Z.to_nat j) j); [|lia|done].
    apply lookup_seqZ. lia.
  - apply list_find_None in Hfind. rewrite Forall_forall in Hfind.
    exfalso. apply (Hfind j); [|done]. apply elem_of_seqZ. lia.
Qed.

Lemma idr_alloc_full idr ptr n mem :
  (∀ j, 0 ≤ j < n → is_Some (idr !! j)) →
  ∃ err, err < 0 ∧ idr_alloc idr ptr 0 n mem = (err, idr).
Proof.
  intros Hfull. unfold idr_alloc. destruct mem; simpl.
  2:{ exists (- ENOMEM). by split. }
  destruct (list_find _ _) as [[n0 x]|] eqn:Hfind.
  - apply list_find_Some in Hfind as (Hl & Hfree & _).
    apply lookup_seqZ in Hl as [-> Hn0].
    destruct (Hfull (0 + Z.of_nat n0)) as [q Hq]; [lia|]. congruence.
  - exists (- ENOSPC). by split.
Qed.

(** Freeing what [kzalloc] has just returned restores the memory. *)
Lemma kfree_kzalloc k cport idr :
  kfree (kzalloc k).1
    (set_heap (<[(kzalloc k).1 := cport]> (heap (kzalloc k).2))
       (set_tty_idr idr (kzalloc k).2))
  = set_tty_idr idr k.
Proof.
  apply kstate_eq; simpl; [done| |done].
  rewrite insert_insert_eq. apply delete_insert_id.
  apply not_elem_of_dom, is_fresh.
Qed.

Lemma rpmsg_tty_alloc_cport_unfold e k :
  rpmsg_tty_alloc_cport e k
  = if negb (cport_mem e) then (ERR_PTR (- ENOMEM), k)
    else
      let p := (kzalloc k).1 in
      let r := idr_alloc (tty_idr k) p 0 MAX_TTY_RPMSG (idr_mem e) in
      let k2 := set_heap (<[p := set_id r.1 zeroed]> (heap (kzalloc k).2))
                  (set_tty_idr r.2 (kzalloc k).2) in
      if r.1 <? 0 then (ERR_PTR (- ENOSPC), kfree p k2) else (PTR p, k2).
Proof.
  unfold rpmsg_tty_alloc_cport. destruct (cport_mem e); [|done]. simpl.
  by destruct (idr_alloc _ _ _ _ _).
Qed.

Lemma rpmsg_tty_alloc_cport_ok e k i :
  cport_mem e = true → idr_mem e = true →
  0 ≤ i → idr_alloc (tty_idr k) (kzalloc k).1 0 MAX_TTY_RPMSG true
          = (i, <[i := (kzalloc k).1]> (tty_idr k)) →
  rpmsg_tty_alloc_cport e k
  = (PTR (kzalloc k).1,
     {| tty_idr := <[i := (kzalloc k).1]> (tty_idr k);
        heap := <[(kzalloc k).1 := set_id i zeroed]> (heap k);
        drvdata := drvdata k |}).
Proof.
  intros Hmem Hidr Hi Halloc. rewrite rpmsg_tty_alloc_cport_unfold.
  rewrite Hmem, Hidr. simpl negb. cbv iota.
  cbv zeta. rewrite Halloc. cbn [fst snd].
  destruct (Z.ltb_spec i 0); [lia|]. f_equal.
  apply kstate_eq; simpl; [done| |done]. by rewrite insert_insert_eq.
Qed.

Lemma rpmsg_tty_alloc_cport_full e k :
  (∀ j, 0 ≤ j < MAX_TTY_RPMSG → is_Some (tty_idr k !! j)) →
  rpmsg_tty_alloc_cport e k
  = (ERR_PTR (if cport_mem e then - ENOSPC else - ENOMEM), k).
Proof.
  intros Hfull. rewrite rpmsg_tty_alloc_cport_unfold.
  destruct (cport_mem e); simpl negb; cbv iota; [|done].
  destruct (idr_alloc_full (tty_idr k) (kzalloc k).1 MAX_TTY_RPMSG (idr_mem e)
              Hfull) as (err & Herr & Halloc).
  cbv zeta. rewrite Halloc. cbn [fst snd].
  destruct (Z.ltb_spec err 0); [|lia]. f_equal.
  rewrite kfree_kzalloc. by apply kstate_eq.
Qed.

Lemma rpmsg_tty_alloc_cport_inv e k p k' :
  rpmsg_tty_alloc_cport e k = (PTR p, k') →
  ∃ i, 0 ≤ i < MAX_TTY_RPMSG
       ∧ tty_idr k !! i = None
       ∧ (∀ j, 0 ≤ j < i → is_Some (tty_idr k !! j))
       ∧ heap k !! p = None
       ∧ k' = {| tty_idr := <[i := p]> (tty_idr k);
                 heap := <[p := set_id i zeroed]> (heap k);
                 drvdata := drvdata k |}.
Proof.
  intros Halloc.
  destruct (rpmsg_tty_alloc_cport_PTR _ _ _ _ Halloc)
    as (i & Hi & -> & Hidr & Hheap & Hdrv).
  destruct (idr_alloc_found _ _ _ _ _ _ Hidr Hi) as (Hn & Hfree & Hlow & Hidr').
  exists i. split; [lia|]. split; [done|]. split; [done|].
  split; [apply kzalloc_fresh|]. by apply kstate_eq.
Qed.

(** C7. The registry hands out the ids 0..31 ([MAX_TTY_RPMSG] is 32). A
    port that [rpmsg_tty_alloc_cport] creates gets the lowest id that was
    free, and is entered in the registry under it; creation succeeds as long
    as an id is free (and memory is available); with all 32 ids in use it
    fails with [-ENOSPC] and the registry and the memory are as before; and
    [rpmsg_tty_release_cport] removes the port's id from the registry, so
    that the next creation takes that id again when no lower id is free. *)
Theorem registry_lowest_free_id :
  MAX_TTY_RPMSG = 32
  ∧ (∀ e k p k',
       rpmsg_tty_alloc_cport e k = (PTR p, k') →
       ∃ i, 0 ≤ i < MAX_TTY_RPMSG
            ∧ tty_idr k !! i = None
            ∧ (∀ j, 0 ≤ j < i → is_Some (tty_idr k !! j))
            ∧ tty_idr k' = <[i := p]> (tty_idr k)
            ∧ heap k' !! p = Some (set_id i zeroed))
  ∧ (∀ e k j,
       cport_mem e = true → idr_mem e = true →
       0 ≤ j < MAX_TTY_RPMSG → tty_idr k !! j = None →
       ∃ p k', rpmsg_tty_alloc_cport e k = (PTR p, k'))
  ∧ (∀ e k,
       cport_mem e = true →
       (∀ j, 0 ≤ j < MAX_TTY_RPMSG → is_Some (tty_idr k !! j)) →
       rpmsg_tty_alloc_cport e k = (ERR_PTR (- ENOSPC), k))
  ∧ (∀ e k p cport,
       heap k !! p = Some cport →
       ∃ k1,
         rpmsg_tty_release_cport p k = Done k1
         ∧ tty_idr k1 = delete (id cport) (tty_idr k)
         ∧ heap k1 = delete p (heap k)
         ∧ (cport_mem e = true → idr_mem e = true →
            0 ≤ id cport < MAX_TTY_RPMSG →
            (∀ j, 0 ≤ j < id cport → is_Some (tty_idr k !! j)) →
            ∃ p' k2,
              rpmsg_tty_alloc_cport e k1 = (PTR p', k2)
              ∧ tty_idr k2 !! id cport = Some p'
              ∧ heap k2 !! p' = Some (set_id (id cport) zeroed))).
Proof.
  split; [done|]. split; [|split; [|split]].
  - intros e k p k' Halloc.
    destruct (rpmsg_tty_alloc_cport_inv _ _ _ _ Halloc)
      as (i & Hi & Hfree & Hlow & _ & ->).
    exists i. simpl. by rewrite lookup_insert_eq.
  - intros e k j Hmem Hidr Hj Hfree.
    destruct (idr_alloc_free (tty_idr k) (kzalloc k).1 MAX_TTY_RPMSG j Hj Hfree)
      as (i & Hi & Halloc).
    eexists _, _. apply (rpmsg_tty_alloc_cport_ok e k i); [done|done|lia|done].
  - intros e k Hmem Hfull. rewrite rpmsg_tty_alloc_cport_full by done.
    by rewrite Hmem.
  - intros e k p cport Hp. unfold rpmsg_tty_release_cport. rewrite Hp.
    eexists. split; [reflexivity|]. split; [done|]. split; [done|].
    intros Hmem Hidr Hid Hlow.
    set (k1 := kfree p (set_tty_idr (idr_remove (tty_idr k) (id cport)) k)).
    assert (tty_idr k1 = delete (id cport) (tty_idr k)) as Hk1 by done.
    destruct (idr_alloc_free (tty_idr k1) (kzalloc k1).1 MAX_TTY_RPMSG
                (id cport)) as (i & Hi & Halloc); [done| |].
    { rewrite Hk1. apply lookup_delete_eq. }
    destruct (idr_alloc_found _ _ _ _ _ _ Halloc) as (_ & Hfree & _); [lia|].
    assert (i = id cport) as ->.
    { destruct (Z.eq_dec i (id cport)) as [|Hne]; [done|]. exfalso.
      destruct (Hlow i) as [q Hq]; [lia|].
      rewrite Hk1, lookup_delete_ne, Hq in Hfree by done. done. }
    eexists _, _.
    split; [apply (rpmsg_tty_alloc_cport_ok e k1 (id cport)); done || lia|].
    simpl. by rewrite !lookup_insert_eq.
Qed.

Lemma ids_in_use_spec idr n :
  ids_in_use idr n = true → ∀ j, 0 ≤ j < n → is_Some (idr !! j).
Proof.
  unfold ids_in_use. rewrite forallb_forall. intros Hall j Hj.
  specialize (Hall j). destruct (idr !! j); [by eexists|].
  assert (false = true); [|done]. apply Hall.
  apply list_elem_of_In, elem_of_seqZ. lia.
Qed.

Lemma registry_lowest_free_id_witness :
  (∃ i, 0 ≤ i < MAX_TTY_RPMSG
        ∧ tty_idr kstate_three !! i = None
        ∧ (∀ j, 0 ≤ j < i → is_Some (tty_idr kstate_three !! j))
        ∧ tty_idr (rpmsg_tty_alloc_cport kenv_ok kstate_three).2
          = <[i := 3%nat]> (tty_idr kstate_three)
        ∧ heap (rpmsg_tty_alloc_cport kenv_ok kstate_three).2 !! 3%nat
          = Some (set_id i zeroed))
  ∧ (∃ p k', rpmsg_tty_alloc_cport kenv_ok kstate_three = (PTR p, k'))
  ∧ rpmsg_tty_alloc_cport kenv_ok kstate_full = (ERR_PTR (- ENOSPC), kstate_full)
  ∧ (∃ k1,
       rpmsg_tty_release_cport 1%nat kstate_three = Done k1
       ∧ tty_idr k1 = delete (id (set_id 1 zeroed)) (tty_idr kstate_three)
       ∧ heap k1 = delete 1%nat (heap kstate_three)
       ∧ ∃ p' k2,
           rpmsg_tty_alloc_cport kenv_ok k1 = (PTR p', k2)
           ∧ tty_idr k2 !! id (set_id 1 zeroed) = Some p'
           ∧ heap k2 !! p' = Some (set_id (id (set_id 1 zeroed)) zeroed)).
Proof.
  destruct registry_lowest_free_id as (_ & Hlow & Hfree & Hfull & Hrel).
  split; [|split; [|split]].
  - apply (Hlow kenv_ok kstate_three 3%nat
             (rpmsg_tty_alloc_cport kenv_ok kstate_three).2).
    vm_compute. reflexivity.
  - apply (Hfree kenv_ok kstate_three 5).
    + reflexivity.
    + reflexivity.
    + vm_compute. split; congruence.
    + vm_compute. reflexivity.
  - apply (Hfull kenv_ok kstate_full).
    + reflexivity.
    + apply ids_in_use_spec. vm_compute. reflexivity.
  - destruct (Hrel kenv_ok kstate_three 1%nat (set_id 1 zeroed))
      as (k1 & Hk1 & Hidr & Hheap & Hreuse).
    + vm_compute. reflexivity.
    + exists k1. split; [exact Hk1|]. split; [exact Hidr|].
      split; [exact Hheap|]. apply Hreuse.
      * reflexivity.
      * reflexivity.
      * vm_compute. split; congruence.
      * apply ids_in_use_spec. vm_compute. reflexivity.
Defined.

(** ** Roll-back of a failed probe *)

(** The error path of the probe, after a successful creation. *)
Lemma rpmsg_tty_probe_err_destroy e rpdev k err p k1 :
  register_err e = Some err →
  rpmsg_tty_alloc_cport e k = (PTR p, k1) →
  ∃ cport,
    heap k1 !! p = Some cport
    ∧ tty_idr k1 !! id cport = Some p
    ∧ tty_idr k !! id cport = None
    ∧ heap k !! p = None
    ∧ rpmsg_tty_probe e rpdev k
      = Done (err, k,
              [tty_port_init p;
               tty_port_register_device p (id cport) (Some err);
               dev_err failed_to_register_tty_port;
               tty_port_destroy p]).
Proof.
  intros Hreg Halloc.
  destruct (rpmsg_tty_alloc_cport_inv _ _ _ _ Halloc)
    as (i & Hi & Hfree & Hlow & Hp & ->).
  exists (set_id i zeroed). simpl.
  rewrite !lookup_insert_eq. split; [done|]. split; [done|].
  split; [done|]. split; [done|].
  unfold rpmsg_tty_probe. rewrite Halloc. simpl heap.
  rewrite lookup_insert_eq, Hreg.
  unfold rpmsg_tty_release_cport. simpl heap. rewrite lookup_insert_eq.
  simpl. do 2 f_equal. f_equal.
  apply kstate_eq; simpl; [|by apply delete_insert_id|done].
  unfold idr_remove. by apply delete_insert_id.
Qed.

(** C8. When [tty_port_register_device] fails in [rpmsg_tty_probe], for the
    port just created and entered in the registry, the tty port is
    destroyed, the id is removed from the registry, the port's memory is
    freed and the error of the registration is returned: the driver's state
    is the one before the probe, with no entry for the port. *)
Theorem probe_registration_failure_rolls_back e rpdev k err p k1 :
  register_err e = Some err →
  rpmsg_tty_alloc_cport e k = (PTR p, k1) →
  ∃ cport,
    heap k1 !! p = Some cport
    ∧ tty_idr k1 !! id cport = Some p
    ∧ tty_idr k !! id cport = None
    ∧ heap k !! p = None
    ∧ rpmsg_tty_probe e rpdev k
      = Done (err, k,
              [tty_port_init p;
               tty_port_register_device p (id cport) (Some err);
               dev_err failed_to_register_tty_port;
               tty_port_destroy p]).
Proof. apply rpmsg_tty_probe_err_destroy. Qed.

Lemma probe_registration_failure_rolls_back_witness :
  ∃ cport,
    heap (rpmsg_tty_alloc_cport kenv_register_fails kstate_three).2 !! 3%nat
    = Some cport
    ∧ tty_idr (rpmsg_tty_alloc_cport kenv_register_fails kstate_three).2
        !! id cport = Some 3%nat
    ∧ tty_idr kstate_three !! id cport = None
    ∧ heap kstate_three !! 3%nat = None
    ∧ rpmsg_tty_probe kenv_register_fails 7 kstate_three
      = Done (- ENODEV, kstate_three,
              [tty_port_init 3%nat;
               tty_port_register_device 3%nat (id cport) (Some (- ENODEV));
               dev_err failed_to_register_tty_port;
               tty_port_destroy 3%nat]).
Proof.
  apply (probe_registration_failure_rolls_back kenv_register_fails 7
           kstate_three (- ENODEV) 3%nat
           (rpmsg_tty_alloc_cport kenv_register_fails kstate_three).2).
  - reflexivity.
  - vm_compute. reflexivity.
Defined.

Lemma idr_alloc_failed idr ptr n mem i idr' :
  idr_alloc idr ptr 0 n mem = (i, idr') → i < 0 → idr' = idr.
Proof.
  unfold idr_alloc. destruct mem; simpl; [|congruence].
  destruct (list_find _ _) as [[n0 x]|] eqn:Hfind; [|congruence].
  apply list_find_Some in Hfind as (Hl & _ & _).
  apply lookup_seqZ in Hl as [-> _]. intros [= <- <-]. lia.
Qed.

(** A creation that fails leaves the registry and the memory as they were. *)
Lemma rpmsg_tty_alloc_cport_ERR e k err k1 :
  rpmsg_tty_alloc_cport e k = (ERR_PTR err, k1) → k1 = k.
Proof.
  rewrite rpmsg_tty_alloc_cport_unfold.
  destruct (cport_mem e); simpl negb; cbv iota zeta; [|congruence].
  destruct (idr_alloc _ _ _ _ _) as [i idr'] eqn:Hidr. cbn [fst snd].
  destruct (Z.ltb_spec i 0) as [Hneg|]; [|done].
  rewrite kfree_kzalloc. intros [= _ <-].
  rewrite (idr_alloc_failed _ _ _ _ _ _ Hidr Hneg). by apply kstate_eq.
Qed.

(** [rpmsg_tty_probe] always returns, never through a dangling pointer, and
    a probe that fails at the creation or at the registration of the port
    leaves the state as it was. *)
Lemma rpmsg_tty_probe_total e rpdev k :
  ∃ ret k' log,
    rpmsg_tty_probe e rpdev k = Done (ret, k', log)
    ∧ ((∃ err k1, rpmsg_tty_alloc_cport e k = (ERR_PTR err, k1))
       ∨ is_Some (register_err e) → k' = k).
Proof.
  destruct (rpmsg_tty_alloc_cport e k) as [[p|err] k1] eqn:Halloc.
  - destruct (register_err e) as [err|] eqn:Hreg.
    + destruct (rpmsg_tty_probe_err_destroy e rpdev k err p k1 Hreg
                  Halloc) as (cport & _ & _ & _ & _ & Hprobe).
      rewrite Hprobe. by eexists _, _, _.
    + destruct (rpmsg_tty_alloc_cport_inv _ _ _ _ Halloc)
        as (i & _ & _ & _ & _ & ->).
      unfold rpmsg_tty_probe. rewrite Halloc. simpl heap.
      rewrite lookup_insert_eq, Hreg. eexists _, _, _.
      split; [reflexivity|]. intros [(? & ? & ?)|[? ?]]; congruence.
  - unfold rpmsg_tty_probe. rewrite Halloc. eexists _, _, _.
    split; [reflexivity|]. intros _.
    by apply (rpmsg_tty_alloc_cport_ERR e k err).
Qed.


(** ** A new port *)

Lemma rpmsg_tty_probe_ok e rpdev k p k1 :
  rpmsg_tty_alloc_cport e k = (PTR p, k1) → register_err e = None →
  ∃ i k',
    rpmsg_tty_probe e rpdev k
    = Done (0, k', [tty_port_init p; tty_port_register_device p i None;
                    dev_dbg (new_channel i)])
    ∧ tty_idr k' !! i = Some p
    ∧ drvdata k' !! rpdev = Some p
    ∧ heap k' !! p = Some (set_rpdev (Some rpdev) (set_id i zeroed)).
Proof.
  intros Halloc Hreg.
  destruct (rpmsg_tty_alloc_cport_inv _ _ _ _ Halloc)
    as (i & _ & _ & _ & _ & ->).
  exists i. eexists. unfold rpmsg_tty_probe.
  rewrite Halloc. simpl heap. rewrite lookup_insert_eq, Hreg. simpl id.
  split; [reflexivity|]. simpl. by rewrite !lookup_insert_eq.
Qed.

(** C1, as amended. A write made while [cts] is 0 returns 0 and has no
    effect at all, so nothing is sent, on every port. A new port has [cts]
    0: the one that [rpmsg_tty_alloc_cport] creates, and the one a
    successful [rpmsg_tty_probe] leaves attached to the device as its
    driver data. Hence, after any calls on an attached port whose flag is
    down none of which carries a terminal-ready update with a nonzero
    value, be it an inbound [DATA_TERM_READY] frame or DTR/RTS raised by the
    tty layer, the two places that assign [cts], every call returned, the
    flag is still down and a write returns 0 and sends nothing. *)
Theorem write_blocked_until_terminal_ready :
  (∀ e cport buf, cts cport = 0 → rpmsg_tty_write e cport buf = Done (0, []))
  ∧ (∀ ke k p k',
       rpmsg_tty_alloc_cport ke k = (PTR p, k') →
       ∃ cport, heap k' !! p = Some cport ∧ cts cport = 0)
  ∧ (∀ ke dev k p k1,
       rpmsg_tty_alloc_cport ke k = (PTR p, k1) → register_err ke = None →
       ∃ k' log cport,
         rpmsg_tty_probe ke dev k = Done (0, k', log)
         ∧ drvdata k' !! dev = Some p
         ∧ heap k' !! p = Some cport
         ∧ cts cport = 0 ∧ rpdev cport = Some dev)
  ∧ (∀ cport evs e buf,
       cts cport = 0 → is_Some (rpdev cport) →
       Forall (λ x, raises_ready x.2 = false) evs →
       ∃ cport',
         run cport evs = Done cport'
         ∧ cts cport' = 0
         ∧ rpdev cport' = rpdev cport
         ∧ rpmsg_tty_write e cport' buf = Done (0, [])).
Proof.
  assert (∀ e cport buf,
            cts cport = 0 → rpmsg_tty_write e cport buf = Done (0, [])) as Hw.
  { intros e cport buf Hcts. unfold rpmsg_tty_write. by rewrite Hcts. }
  split; [done|]. split; [|split].
  - intros ke k p k' Halloc.
    destruct (rpmsg_tty_alloc_cport_inv _ _ _ _ Halloc)
      as (i & _ & _ & _ & _ & ->).
    exists (set_id i zeroed). simpl. by rewrite lookup_insert_eq.
  - intros ke dev k p k1 Halloc Hreg.
    destruct (rpmsg_tty_probe_ok ke dev k p k1 Halloc Hreg)
      as (i & k' & Hprobe & _ & Hdrv & Hheap).
    by eexists k', _, _.
  - intros cport evs e buf Hcts Hdev Hevs.
    destruct (run_blocked cport evs Hcts Hdev Hevs)
      as (cport' & Hrun & Hcts' & Hdev').
    exists cport'. split; [done|]. split; [done|]. split; [done|].
    by apply Hw.
Qed.

Lemma write_blocked_until_terminal_ready_witness :
  rpmsg_tty_write env_ok zeroed [Byte.x41] = Done (0, [])
  ∧ (∃ cport,
       heap (rpmsg_tty_alloc_cport kenv_ok kstate_init).2 !! 0%nat = Some cport
       ∧ cts cport = 0)
  ∧ (∃ k' log cport,
       rpmsg_tty_probe kenv_ok 7 kstate_init = Done (0, k', log)
       ∧ drvdata k' !! 7 = Some 0%nat
       ∧ heap k' !! 0%nat = Some cport
       ∧ cts cport = 0 ∧ rpdev cport = Some 7)
  ∧ ∃ cport',
      run attached_port
        [(env_ok, Write [Byte.x41]);
         (env_ok, Cb [Byte.x01; Byte.x00; Byte.x00] 0);
         (env_ok, Write_room);
         (env_busy, Dtr_rts 0);
         (env_ok, Throttle);
         (env_ok, Cb [Byte.x00; Byte.x41] 0)] = Done cport'
      ∧ cts cport' = 0
      ∧ rpdev cport' = rpdev attached_port
      ∧ rpmsg_tty_write env_ok cport' [Byte.x41; Byte.x42] = Done (0, []).
Proof.
  destruct write_blocked_until_terminal_ready as (Hw & Hnew & Hprobe & Hrun).
  split; [|split; [|split]].
  - apply (Hw env_ok zeroed [Byte.x41]). reflexivity.
  - apply (Hnew kenv_ok kstate_init 0%nat
             (rpmsg_tty_alloc_cport kenv_ok kstate_init).2).
    vm_compute. reflexivity.
  - apply (Hprobe kenv_ok 7 kstate_init 0%nat
             (rpmsg_tty_alloc_cport kenv_ok kstate_init).2).
    + vm_compute. reflexivity.
    + reflexivity.
  - apply (Hrun attached_port
             [(env_ok, Write [Byte.x41]);
              (env_ok, Cb [Byte.x01; Byte.x00; Byte.x00] 0);
              (env_ok, Write_room);
              (env_busy, Dtr_rts 0);
              (env_ok, Throttle);
              (env_ok, Cb [Byte.x00; Byte.x41] 0)]
             env_ok [Byte.x41; Byte.x42]).
    + reflexivity.
    + by eexists.
    + repeat constructor.
Defined.

(** C1, as stated, fails: on the port a first probe leaves (device 7, id
    0), with no inbound frame received at all, the tty layer raising
    DTR/RTS sets the flag, and the next write is sent. *)
Lemma local_dtr_raise_unblocks_write :
  heap kstate_one !! 0%nat = Some attached_port
  ∧ cts attached_port = 0
  ∧ step env_ok attached_port (Dtr_rts 1)
    = Done (0, attached_ready_port,
            [rpmsg_trysend [Byte.x01; Byte.x00; Byte.x01] 0])
  ∧ rpmsg_tty_write env_ok attached_ready_port [Byte.x41]
    = Done (1, [dev_dbg (send_msg 1); rpmsg_trysend [Byte.x00; Byte.x41] 0]).
Proof. repeat split; vm_compute; reflexivity. Qed.

(** The scenario of a new port: a write of 10 bytes is dropped while the
    flag is down; an inbound [DATA_TERM_READY] frame with value 1 raises the
    flag and wakes the writer; the same write is then sent as one frame,
    tag then the 10 bytes. *)
Example new_port_scenario :
  let buf := replicate 10 Byte.x41 in
  ∃ k' log p cport cport',
    rpmsg_tty_probe kenv_ok 7 kstate_init = Done (0, k', log)
    ∧ drvdata k' !! 7 = Some p
    ∧ heap k' !! p = Some cport
    ∧ rpmsg_tty_write env_ok cport buf = Done (0, [])
    ∧ rpmsg_tty_cb env_ok cport (terminal_ready_frame Byte.x01 []) 0
      = Done (0, cport',
              [dev_dbg (ctrl_received (Some Byte.x00));
               print_hex_dump_debug [Byte.x00; Byte.x01];
               tty_port_tty_wakeup])
    ∧ cts cport' = 1
    ∧ rpmsg_tty_write env_ok cport' buf
      = Done (10, [dev_dbg (send_msg 10);
                   rpmsg_trysend (Byte.x00 :: buf) 0]).
Proof.
  eexists _, _, _, _, _. split; [vm_compute; reflexivity|].
  split; [vm_compute; reflexivity|].
  split; [vm_compute; reflexivity|]. repeat split.
Qed.

(** * Further properties of the driver *)

(** ** The receive path *)

Lemma rpmsg_tty_cb_cases e cport data src :
  (rpmsg_tty_cb e cport data src = rejected cport data
   ∧ ((length data ≤ 1)%nat
      ∨ ∃ cmd, head data = Some cmd ∧ NUM_RPMSG_TTY_TYPE ≤ u8_to_Z cmd))
  ∨ (∃ cmd b payload,
       data = cmd :: b :: payload ∧ u8_to_Z cmd = RPMSG_DATA
       ∧ rpmsg_tty_cb e cport data src
         = Done (0, (rpmsg_tty_data_handler e cport (b :: payload) src).1,
                    (rpmsg_tty_data_handler e cport (b :: payload) src).2))
  ∨ (∃ cmd b payload,
       data = cmd :: b :: payload ∧ u8_to_Z cmd = RPMSG_CTRL
       ∧ rpmsg_tty_cb e cport data src
         = Done (0, (rpmsg_tty_ctrl_handler e cport (b :: payload) src).1,
                    (rpmsg_tty_ctrl_handler e cport (b :: payload) src).2)).
Proof.
  destruct data as [|cmd [|b payload]].
  - left. split; [done|]. left. simpl. lia.
  - left. split; [done|]. left. simpl. lia.
  - pose proof (u8_to_Z_range cmd).
    destruct (Z.le_gt_cases NUM_RPMSG_TTY_TYPE (u8_to_Z cmd)) as [Hcmd|Hcmd].
    + left. split; [by apply rpmsg_tty_cb_bad_type|]. right. by exists cmd.
    + right.
      destruct (rpmsg_tty_handler_inv (u8_to_Z cmd)) as [[Hc Hh]|[Hc Hh]];
        [lia|left|right]; exists cmd, b, payload;
        (split; [done|]); (split; [done|]); by apply rpmsg_tty_cb_dispatch.
Qed.

(** X1. A data frame is delivered on a best-effort basis. The dispatcher
    hands the whole payload to the flip buffer once, the bytes that fit are
    appended to the stream, a shortfall is only logged, the flip buffer is
    pushed in every case, and the callback returns 0. *)
Theorem data_frame_best_effort e cport cmd b payload src :
  u8_to_Z cmd = RPMSG_DATA →
  let data := b :: payload in
  let len := Z.of_nat (length data) in
  let copied := Z.max 0 (Z.min len (flip_room e)) in
  ∃ cport',
    rpmsg_tty_cb e cport (cmd :: data) src
    = Done (0, cport',
            [dev_dbg (msg_rx src len);
             tty_insert_flip_string_fixed_flag data copied]
              ++ (if copied =? len then [] else [dev_dbg (trunc_buffer copied)])
              ++ [tty_flip_buffer_push])
    ∧ rx (port cport') = rx (port cport) ++ take (Z.to_nat copied) data
    ∧ Z.of_nat (length (rx (port cport')))
      = Z.of_nat (length (rx (port cport))) + copied
    ∧ cts cport' = cts cport
    ∧ (len ≤ flip_room e → copied = len
                          ∧ rx (port cport') = rx (port cport) ++ data)
    ∧ (0 ≤ flip_room e < len → copied = flip_room e).
Proof.
  intros Hcmd. cbv zeta.
  rewrite (rpmsg_tty_cb_dispatch _ _ _ _ _ _ rpmsg_tty_data_handler)
    by (by rewrite Hcmd).
  rewrite rpmsg_tty_data_handler_nonempty. cbv zeta.
  eexists. split; [reflexivity|]. cbn [fst snd port rx set_port cts].
  set (data := b :: payload).
  split; [done|]. split.
  { rewrite length_app, length_take. lia. }
  split; [done|]. split.
  - intros Hroom. split; [lia|].
    rewrite Z.max_r, Z.min_l by lia. by rewrite Nat2Z.id, firstn_all.
  - lia.
Qed.

Lemma data_frame_best_effort_witness :
  ∃ cport',
    rpmsg_tty_cb env_full_room zeroed
      [Byte.x00; Byte.x41; Byte.x42; Byte.x43] 5
    = Done (0, cport',
            [dev_dbg (msg_rx 5 3);
             tty_insert_flip_string_fixed_flag [Byte.x41; Byte.x42; Byte.x43] 2;
             dev_dbg (trunc_buffer 2);
             tty_flip_buffer_push])
    ∧ rx (port cport') = [Byte.x41; Byte.x42].
Proof.
  destruct (data_frame_best_effort env_full_room zeroed Byte.x00 Byte.x41
              [Byte.x42; Byte.x43] 5 eq_refl)
    as (cport' & Hcb & Hrx & _).
  exists cport'. split; [exact Hcb | exact Hrx].
Defined.

Lemma rpmsg_tty_ctrl_handler_frame e cport data src :
  let r := rpmsg_tty_ctrl_handler e cport data src in
  port r.1 = port cport ∧ id r.1 = id cport ∧ rpdev r.1 = rpdev cport
  ∧ (∀ msg ret, rpmsg_trysend msg ret ∉ r.2)
  ∧ (cts r.1 ≠ cts cport →
     ∃ ctrl v more, data = ctrl :: v :: more
                    ∧ u8_to_Z ctrl = DATA_TERM_READY).
Proof.
  cbv zeta. destruct data as [|ctrl [|v more]].
  - rewrite rpmsg_tty_ctrl_handler_short by (simpl; lia). simpl.
    repeat split; try done. intros msg ret Hin.
    repeat (apply elem_of_cons in Hin as [Hin|Hin]; [done|]).
    by apply elem_of_nil in Hin.
  - rewrite rpmsg_tty_ctrl_handler_short by (simpl; lia). simpl.
    repeat split; try done. intros msg ret Hin.
    repeat (apply elem_of_cons in Hin as [Hin|Hin]; [done|]).
    by apply elem_of_nil in Hin.
  - rewrite rpmsg_tty_ctrl_handler_long. cbv zeta.
    destruct (Z.eqb_spec (u8_to_Z ctrl) DATA_TERM_READY) as [Hctrl|Hctrl].
    + destruct (u8_to_Z v =? 0); simpl; (repeat split; try done).
      * intros msg ret Hin.
        repeat (apply elem_of_cons in Hin as [Hin|Hin]; [done|]).
        by apply elem_of_nil in Hin.
      * intros _. by exists ctrl, v, more.
      * intros msg ret Hin.
        repeat (apply elem_of_cons in Hin as [Hin|Hin]; [done|]).
        by apply elem_of_nil in Hin.
      * intros _. by exists ctrl, v, more.
    + simpl. repeat split; try done. intros msg ret Hin.
      repeat (apply elem_of_cons in Hin as [Hin|Hin]; [done|]).
      by apply elem_of_nil in Hin.
Qed.

Lemma rpmsg_tty_data_handler_frame e cport data src :
  let r := rpmsg_tty_data_handler e cport data src in
  cts r.1 = cts cport ∧ id r.1 = id cport ∧ rpdev r.1 = rpdev cport
  ∧ (∀ msg ret, rpmsg_trysend msg ret ∉ r.2)
  ∧ (rx (port r.1) ≠ rx (port cport) → data ≠ []).
Proof.
  cbv zeta. destruct data as [|b payload].
  - simpl. repeat split; try done. intros msg ret Hin.
    repeat (apply elem_of_cons in Hin as [Hin|Hin]; [done|]).
    by apply elem_of_nil in Hin.
  - rewrite rpmsg_tty_data_handler_nonempty. cbv zeta. simpl.
    repeat split; try done. intros msg ret Hin.
    destruct (_ =? _); simpl in Hin;
      repeat (apply elem_of_cons in Hin as [Hin|Hin]; [done|]);
      by apply elem_of_nil in Hin.
Qed.

(** X2. The receive callback keeps the data plane and the control plane
    apart and never answers on the endpoint: it always returns, never calls
    [rpmsg_trysend], never changes the port's id or device, changes [cts]
    only for a control frame that names [DATA_TERM_READY] and has a value
    byte, and changes the received stream only for a data frame with a
    payload. *)
Theorem receive_path_frame_conditions e cport data src :
  ∃ ret cport' log,
    rpmsg_tty_cb e cport data src = Done (ret, cport', log)
    ∧ id cport' = id cport
    ∧ rpdev cport' = rpdev cport
    ∧ (∀ msg r, rpmsg_trysend msg r ∉ log)
    ∧ (cts cport' ≠ cts cport →
       rx (port cport') = rx (port cport)
       ∧ ∃ cmd ctrl v more,
           data = cmd :: ctrl :: v :: more
           ∧ u8_to_Z cmd = RPMSG_CTRL ∧ u8_to_Z ctrl = DATA_TERM_READY)
    ∧ (rx (port cport') ≠ rx (port cport) →
       cts cport' = cts cport
       ∧ ∃ cmd b payload,
           data = cmd :: b :: payload ∧ u8_to_Z cmd = RPMSG_DATA).
Proof.
  destruct (rpmsg_tty_cb_cases e cport data src)
    as [[Hcb _]|[(cmd & b & payload & -> & Hcmd & Hcb)
                |(cmd & b & payload & -> & Hcmd & Hcb)]]; rewrite Hcb.
  - eexists _, _, _. split; [reflexivity|]. repeat split; try done.
    intros msg r Hin.
    repeat (apply elem_of_cons in Hin as [Hin|Hin]; [done|]).
    by apply elem_of_nil in Hin.
  - destruct (rpmsg_tty_data_handler_frame e cport (b :: payload) src)
      as (Hcts & Hid & Hdev & Hsend & _).
    eexists _, _, _. split; [reflexivity|]. repeat split; try done.
    by exists cmd, b, payload.
  - destruct (rpmsg_tty_ctrl_handler_frame e cport (b :: payload) src)
      as (Hport & Hid & Hdev & Hsend & Hcts).
    eexists _, _, _. split; [reflexivity|]. repeat split; try done.
    + by rewrite Hport.
    + destruct (Hcts H) as (ctrl & v & more & [= -> ->] & Hctrl).
      by exists cmd, ctrl, v, more.
    + by rewrite Hport in H.
    + by rewrite Hport in H.
Qed.

Lemma receive_path_frame_conditions_witness :
  ∃ ret cport' log,
    rpmsg_tty_cb env_ok zeroed [Byte.x01; Byte.x00; Byte.x01] 0
    = Done (ret, cport', log)
    ∧ cts cport' = 1
    ∧ rx (port cport') = rx (port zeroed).
Proof.
  destruct (receive_path_frame_conditions env_ok zeroed
              [Byte.x01; Byte.x00; Byte.x01] 0)
    as (ret & cport' & log & Hcb & _ & _ & _ & Hcts & _).
  exists ret, cport', log. split; [exact Hcb|].
  assert (cts cport' = 1) as Hc.
  { vm_compute in Hcb. injection Hcb as _ <- _. reflexivity. }
  split; [exact Hc|].
  apply Hcts. rewrite Hc. vm_compute. discriminate.
Defined.


(** ** The flag over all calls *)

Lemma step_without_update e cport ev ret cport' log :
  terminal_ready_update ev = None →
  step e cport ev = Done (ret, cport', log) → cts cport' = cts cport.
Proof.
  intros Hev. destruct ev as [data src|buf| | | |raise]; cbn [step].
  - destruct (rpmsg_tty_cb_cases e cport data src)
      as [[Hcb _]|[(cmd & b & payload & -> & Hcmd & Hcb)
                  |(cmd & b & payload & -> & Hcmd & Hcb)]];
      rewrite Hcb; intros Hd.
    + unfold rejected in Hd. congruence.
    + assert (cport' = (rpmsg_tty_data_handler e cport (b :: payload) src).1)
        as -> by congruence.
      apply rpmsg_tty_data_handler_cts.
    + assert (cport' = (rpmsg_tty_ctrl_handler e cport (b :: payload) src).1)
        as -> by congruence.
      destruct (Z.eq_dec
                  (cts (rpmsg_tty_ctrl_handler e cport (b :: payload) src).1)
                  (cts cport)) as [|Hne]; [done|].
      destruct (rpmsg_tty_ctrl_handler_frame e cport (b :: payload) src)
        as (_ & _ & _ & _ & Hcts).
      destruct (Hcts Hne) as (ctrl & v & more & [= -> ->] & Hctrl).
      simpl in Hev. rewrite Hcmd, Hctrl in Hev. done.
  - destruct (rpmsg_tty_write e cport buf) as [[r l]|]; [|done].
    congruence.
  - destruct (rpmsg_tty_write_room e cport) as [r|]; [|done]. congruence.
  - destruct (rpmsg_tty_throttle e cport) as [l|]; [|done]. congruence.
  - destruct (rpmsg_tty_unthrottle e cport) as [l|]; [|done]. congruence.
  - done.
Qed.

Lemma step_with_update e cport ev v ret cport' log :
  terminal_ready_update ev = Some v →
  step e cport ev = Done (ret, cport', log) →
  cts cport' = match ev with
               | Dtr_rts _ => v
               | _ => if v =? 0 then 0 else 1
               end.
Proof.
  intros Hev. destruct ev as [data src|buf| | | |raise]; try done.
  - destruct data as [|cmd [|ctrl [|v0 more]]]; try done. simpl in Hev.
    destruct (Z.eqb_spec (u8_to_Z cmd) RPMSG_CTRL) as [Hcmd|]; [|done].
    destruct (Z.eqb_spec (u8_to_Z ctrl) DATA_TERM_READY) as [Hctrl|]; [|done].
    simpl in Hev. simplify_eq. cbn [step].
    rewrite (rpmsg_tty_cb_dispatch _ _ _ _ _ _ rpmsg_tty_ctrl_handler)
      by (by rewrite Hcmd).
    rewrite rpmsg_tty_ctrl_handler_long. cbv zeta. rewrite Hctrl.
    change (DATA_TERM_READY =? DATA_TERM_READY) with true. cbv iota.
    destruct (u8_to_Z v0 =? 0); cbn [fst snd]; by intros [= _ <- _].
  - simpl in Hev. simplify_eq. cbn [step]. unfold rpmsg_tty_dtr_rts.
    cbv zeta.
    destruct (if negb (v =? 0) then rpmsg_tty_unthrottle e (set_cts v cport)
              else rpmsg_tty_throttle e (set_cts v cport)) as [l|]; [|done].
    intros Hd. assert (cport' = set_cts v cport) as -> by congruence. done.
Qed.

Lemma run_without_update cport evs cport' :
  Forall (λ x, terminal_ready_update x.2 = None) evs →
  run cport evs = Done cport' → cts cport' = cts cport.
Proof.
  intros Hevs. revert cport.
  induction Hevs as [|[e ev] evs Hev _ IH]; intros cport; simpl.
  - by intros [= ->].
  - destruct (step e cport ev) as [[[ret cport1] log]|] eqn:Hstep; [|done].
    intros Hrun. rewrite (IH _ Hrun).
    by apply (step_without_update e cport ev ret cport1 log).
Qed.

(** X3. The flag is decided by the last call that carries a terminal-ready
    update, whatever came before it: 1 or 0 for an inbound
    [DATA_TERM_READY] frame by its value byte, the value [raise] itself for
    [rpmsg_tty_dtr_rts]. Calls that carry no update (data frames, rejected
    or unknown frames, writes, write-room queries, throttle and unthrottle)
    leave it as it is. *)
Theorem flag_decided_by_last_update cport evs1 e ev evs2 v cport' :
  terminal_ready_update ev = Some v →
  Forall (λ x, terminal_ready_update x.2 = None) evs2 →
  run cport (evs1 ++ (e, ev) :: evs2) = Done cport' →
  cts cport' = match ev with
               | Dtr_rts _ => v
               | _ => if v =? 0 then 0 else 1
               end.
Proof.
  intros Hev Hevs2. rewrite run_app.
  destruct (run cport evs1) as [cport1|]; [|done].
  rewrite run_cons.
  destruct (step e cport1 ev) as [[[ret cport2] log]|] eqn:Hstep; [|done].
  intros Hrun. rewrite (run_without_update _ _ _ Hevs2 Hrun).
  by apply (step_with_update e cport1 ev v ret cport2 log).
Qed.

Lemma flag_decided_by_last_update_witness :
  ∃ cport',
    run attached_port
      ([(env_ok, Dtr_rts 1); (env_ok, Write [Byte.x41])]
       ++ (env_ok, Cb [Byte.x01; Byte.x00; Byte.x00; Byte.x07] 0)
            :: [(env_ok, Cb [Byte.x00; Byte.x41] 0);
                (env_ok, Unthrottle);
                (env_ok, Cb [Byte.x01; Byte.x09; Byte.x01] 0)])
    = Done cport'
    ∧ cts cport' = 0.
Proof.
  eexists. split; [vm_compute; reflexivity|].
  apply (flag_decided_by_last_update attached_port
           [(env_ok, Dtr_rts 1); (env_ok, Write [Byte.x41])]
           env_ok (Cb [Byte.x01; Byte.x00; Byte.x00; Byte.x07] 0)
           [(env_ok, Cb [Byte.x00; Byte.x41] 0);
            (env_ok, Unthrottle);
            (env_ok, Cb [Byte.x01; Byte.x09; Byte.x01] 0)]
           0).
  - reflexivity.
  - repeat constructor.
  - vm_compute. reflexivity.
Defined.

(** ** Control frames sent by the driver *)

Lemma not_elem_of_logs (msg : list u8) (r : Z) (m : log_msg) :
  rpmsg_trysend msg r ∉ [dev_dbg m].
Proof.
  intros Hin. apply elem_of_cons in Hin as [Hin|Hin]; [done|].
  by apply elem_of_nil in Hin.
Qed.

Lemma no_more_sends (ret : Z) (msg : list u8) (r : Z) :
  rpmsg_trysend msg r
  ∉ (if ret <? 0 then [dev_dbg (cannot_send_control ret)] else []).
Proof.
  destruct (ret <? 0); [apply not_elem_of_logs | apply not_elem_of_nil].
Qed.

Lemma rpmsg_tty_write_control_unattached e cport ctrl values :
  rpdev cport = None →
  rpmsg_tty_write_control e cport ctrl values
  = if kzalloc_ok e then Oops else Done (- ENOMEM, []).
Proof.
  intros Hr. unfold rpmsg_tty_write_control. rewrite Hr.
  by destruct (kzalloc_ok e).
Qed.

(** X4. [rpmsg_tty_dtr_rts] sets the flag to [raise] before it sends and
    whatever becomes of the control frame. Without memory for the frame it
    sends nothing and returns. With memory, on a port attached to its
    device, it hands exactly one frame to the endpoint, control tag,
    [DATA_TERM_READY], then 1 for a nonzero [raise] and 0 otherwise, and a
    refused send is not undone; on a port not yet attached it reads the
    endpoint through a NULL device. After a nonzero [raise] a write no
    longer takes the early return, even when the peer was never told. *)
Theorem dtr_rts_sets_flag_first e cport raise :
  (kzalloc_ok e = false →
   rpmsg_tty_dtr_rts e cport raise = Done (set_cts raise cport, []))
  ∧ (kzalloc_ok e = true → is_Some (rpdev cport) →
     ∃ rest,
       rpmsg_tty_dtr_rts e cport raise
       = Done (set_cts raise cport,
               rpmsg_trysend
                 [u8_of_Z RPMSG_CTRL; u8_of_Z DATA_TERM_READY;
                  u8_of_Z (if raise =? 0 then 0 else 1)] (trysend_ret e)
               :: rest)
       ∧ ∀ msg r, rpmsg_trysend msg r ∉ rest)
  ∧ (kzalloc_ok e = true → rpdev cport = None →
     rpmsg_tty_dtr_rts e cport raise = Oops)
  ∧ (raise ≠ 0 →
     ∀ e' buf, rpmsg_tty_write e' (set_cts raise cport) buf ≠ Done (0, [])).
Proof.
  split; [|split; [|split]].
  - intros Hmem. unfold rpmsg_tty_dtr_rts, rpmsg_tty_unthrottle,
      rpmsg_tty_throttle, rpmsg_tty_write_control.
    rewrite Hmem. simpl. by destruct (negb (raise =? 0)).
  - intros Hmem Hdev.
    unfold rpmsg_tty_dtr_rts, rpmsg_tty_unthrottle, rpmsg_tty_throttle.
    cbv zeta. rewrite !rpmsg_tty_write_control_attached by done.
    rewrite Hmem.
    destruct (Z.eqb_spec raise 0) as [->|Hraise]; simpl negb; cbv iota;
      (eexists; split; [reflexivity|]); intros msg r; apply no_more_sends.
  - intros Hmem Hdev.
    unfold rpmsg_tty_dtr_rts, rpmsg_tty_unthrottle, rpmsg_tty_throttle.
    cbv zeta. rewrite !rpmsg_tty_write_control_unattached by done.
    rewrite Hmem. by destruct (negb (raise =? 0)).
  - intros Hraise e' buf. unfold rpmsg_tty_write. simpl cts.
    destruct (Z.eqb_spec raise 0); [done|]. simpl.
    repeat case_match; intros ?; simplify_eq/=.
Qed.

Lemma dtr_rts_sets_flag_first_witness :
  (∃ rest,
     rpmsg_tty_dtr_rts env_busy attached_port 1
     = Done (set_cts 1 attached_port,
             rpmsg_trysend [Byte.x01; Byte.x00; Byte.x01] (- ENOMEM) :: rest)
     ∧ ∀ msg r, rpmsg_trysend msg r ∉ rest)
  ∧ rpmsg_tty_dtr_rts env_no_memory attached_port 1
    = Done (set_cts 1 attached_port, [])
  ∧ rpmsg_tty_dtr_rts env_ok zeroed 1 = Oops
  ∧ rpmsg_tty_write env_ok (set_cts 1 attached_port) [Byte.x41]
    ≠ Done (0, []).
Proof.
  split; [|split; [|split]].
  - apply (proj1 (proj2 (dtr_rts_sets_flag_first env_busy attached_port 1))).
    + reflexivity.
    + by eexists.
  - apply (proj1 (dtr_rts_sets_flag_first env_no_memory attached_port 1)).
    reflexivity.
  - apply (proj1 (proj2 (proj2 (dtr_rts_sets_flag_first env_ok zeroed 1)))).
    + reflexivity.
    + reflexivity.
  - apply (proj2 (proj2 (proj2
             (dtr_rts_sets_flag_first env_busy attached_port 1)))).
    discriminate.
Defined.

(** X5. On a port attached to its device and with memory for the frame,
    [rpmsg_tty_throttle] and [rpmsg_tty_unthrottle] each hand one frame to
    the endpoint, and the receive callback of a peer running this driver
    understands it: the frame of throttle brings the peer's flag to 0
    without a wakeup, the frame of unthrottle brings it to 1 and wakes the
    peer's writer. Without memory each sends nothing and returns. *)
Theorem throttle_frames_reach_peer e cport e' peer src :
  (kzalloc_ok e = false →
   rpmsg_tty_throttle e cport = Done []
   ∧ rpmsg_tty_unthrottle e cport = Done [])
  ∧ (kzalloc_ok e = true → is_Some (rpdev cport) →
     (∃ frame rest,
        rpmsg_tty_throttle e cport
        = Done (rpmsg_trysend frame (trysend_ret e) :: rest)
        ∧ (∀ msg r, rpmsg_trysend msg r ∉ rest)
        ∧ ∃ log, rpmsg_tty_cb e' peer frame src = Done (0, set_cts 0 peer, log)
                 ∧ tty_port_tty_wakeup ∉ log)
     ∧ (∃ frame rest,
          rpmsg_tty_unthrottle e cport
          = Done (rpmsg_trysend frame (trysend_ret e) :: rest)
          ∧ (∀ msg r, rpmsg_trysend msg r ∉ rest)
          ∧ ∃ log, rpmsg_tty_cb e' peer frame src = Done (0, set_cts 1 peer, log)
                   ∧ tty_port_tty_wakeup ∈ log)).
Proof.
  split.
  - intros Hmem. unfold rpmsg_tty_unthrottle, rpmsg_tty_throttle,
      rpmsg_tty_write_control. by rewrite Hmem.
  - intros Hmem Hdev. unfold rpmsg_tty_unthrottle, rpmsg_tty_throttle.
    cbv zeta. rewrite !rpmsg_tty_write_control_attached by done.
    rewrite Hmem. split.
    + eexists _, _. split; [reflexivity|].
      split; [intros msg r; apply no_more_sends|].
      pose proof (rpmsg_tty_cb_terminal_ready e' peer (u8_of_Z 0) [] src)
        as Hcb.
      unfold terminal_ready_frame in Hcb. rewrite Hcb.
      change (u8_to_Z (u8_of_Z 0) =? 0) with true. cbv iota.
      eexists. split; [reflexivity|]. intros Hin.
      repeat (apply elem_of_cons in Hin as [Hin|Hin]; [done|]).
      by apply elem_of_nil in Hin.
    + eexists _, _. split; [reflexivity|].
      split; [intros msg r; apply no_more_sends|].
      pose proof (rpmsg_tty_cb_terminal_ready e' peer (u8_of_Z 1) [] src)
        as Hcb.
      unfold terminal_ready_frame in Hcb. rewrite Hcb.
      change (u8_to_Z (u8_of_Z 1) =? 0) with false. cbv iota.
      eexists. split; [reflexivity|].
      apply elem_of_app. right. apply list_elem_of_here.
Qed.

Lemma throttle_frames_reach_peer_witness :
  (∃ frame rest,
     rpmsg_tty_throttle env_ok attached_ready_port
     = Done (rpmsg_trysend frame (trysend_ret env_ok) :: rest)
     ∧ (∀ msg r, rpmsg_trysend msg r ∉ rest)
     ∧ ∃ log, rpmsg_tty_cb env_ok attached_ready_port frame 9
              = Done (0, set_cts 0 attached_ready_port, log)
              ∧ tty_port_tty_wakeup ∉ log)
  ∧ (∃ frame rest,
       rpmsg_tty_unthrottle env_ok attached_ready_port
       = Done (rpmsg_trysend frame (trysend_ret env_ok) :: rest)
       ∧ (∀ msg r, rpmsg_trysend msg r ∉ rest)
       ∧ ∃ log, rpmsg_tty_cb env_ok attached_ready_port frame 9
                = Done (0, set_cts 1 attached_ready_port, log)
                ∧ tty_port_tty_wakeup ∈ log).
Proof.
  apply (proj2 (throttle_frames_reach_peer env_ok attached_ready_port
                  env_ok attached_ready_port 9)).
  - reflexivity.
  - by eexists.
Defined.

(** ** The write path *)

(** All the ways a write can end, for a buffer whose length fits an int
    with its tag. *)
Lemma rpmsg_tty_write_cases e cport buf :
  Z.of_nat (length buf) < INT_MAX →
  rpmsg_tty_write e cport buf
  = let len := Z.of_nat (length buf) in
    let max := buf_payload_size e in
    if cts cport =? 0 then Done (0, [])
    else
      match rpdev cport with
      | None => Oops
      | Some _ =>
          if max <? 0 then Done (max, [dev_dbg (send_msg len)])
          else if max =? 0 then Oops
          else if kzalloc_ok e then
            let n := Z.min len (max - sizeof_rpmsg_tty_payload) in
            let frame := u8_of_Z RPMSG_DATA :: take (Z.to_nat n) buf in
            let ret := trysend_ret e in
            if ret =? 0 then
              Done (n, [dev_dbg (send_msg len); rpmsg_trysend frame ret])
            else
              Done (0, [dev_dbg (send_msg len); rpmsg_trysend frame ret;
                        dev_dbg (rpmsg_send_failed ret)])
          else Done (- ENOMEM, [dev_dbg (send_msg len)])
      end.
Proof.
  intros Hlen. cbv zeta.
  destruct (Z.eqb_spec (cts cport) 0) as [Hcts|Hcts].
  { unfold rpmsg_tty_write. by rewrite Hcts. }
  destruct (rpdev cport) as [r|] eqn:Hr.
  2:{ unfold rpmsg_tty_write. destruct (Z.eqb_spec (cts cport) 0); [done|].
      by rewrite Hr. }
  destruct (Z.ltb_spec (buf_payload_size e) 0) as [Hneg|Hpos].
  { unfold rpmsg_tty_write. destruct (Z.eqb_spec (cts cport) 0); [done|].
    rewrite Hr. cbv zeta.
    by destruct (Z.ltb_spec (buf_payload_size e) 0); [|lia]. }
  destruct (Z.eqb_spec (buf_payload_size e) 0) as [Hzero|Hnz].
  { unfold rpmsg_tty_write. destruct (Z.eqb_spec (cts cport) 0); [done|].
    rewrite Hr. cbv zeta.
    destruct (Z.ltb_spec (buf_payload_size e) 0); [lia|].
    rewrite Hzero. unfold sizeof_rpmsg_tty_payload.
    rewrite (int_of_id (Z.of_nat (length buf) + 1))
      by (unfold INT_MIN, INT_MAX in *; lia).
    by rewrite Z.min_r by lia. }
  destruct (kzalloc_ok e) eqn:Hmem.
  { rewrite rpmsg_tty_write_sends; [done|done| |lia|done|done].
    rewrite Hr. by eexists. }
  unfold rpmsg_tty_write. destruct (Z.eqb_spec (cts cport) 0); [done|].
  rewrite Hr. cbv zeta.
  destruct (Z.ltb_spec (buf_payload_size e) 0); [lia|].
  unfold sizeof_rpmsg_tty_payload.
  rewrite (int_of_id (Z.of_nat (length buf) + 1))
    by (unfold INT_MIN, INT_MAX in *; lia).
  rewrite (uint_of_id (Z.min _ _)) by (unfold INT_MAX in *; lia).
  destruct (Z.eqb_spec (Z.min (Z.of_nat (length buf) + 1) (buf_payload_size e)) 0);
    [lia|].
  by rewrite Hmem.
Qed.

(** X6. On a port attached to its device with the flag up, a write whose
    send succeeds consumes exactly the smaller of the buffer length and the
    room [rpmsg_tty_write_room] reports, and sends those bytes after the
    tag in one frame no longer than the buffer size of the endpoint. A
    buffer that fits the reported room is consumed whole. *)
Theorem write_consumes_up_to_write_room e cport buf :
  cts cport ≠ 0 → is_Some (rpdev cport) →
  1 ≤ buf_payload_size e ≤ INT_MAX →
  kzalloc_ok e = true → trysend_ret e = 0 →
  Z.of_nat (length buf) < INT_MAX →
  let len := Z.of_nat (length buf) in
  ∃ room,
    rpmsg_tty_write_room e cport = Done room
    ∧ let frame := u8_of_Z RPMSG_DATA :: take (Z.to_nat (Z.min len room)) buf in
      rpmsg_tty_write e cport buf
      = Done (Z.min len room, [dev_dbg (send_msg len); rpmsg_trysend frame 0])
      ∧ 0 ≤ Z.min len room ≤ len
      ∧ Z.of_nat (length frame) = Z.min len room + 1
      ∧ Z.of_nat (length frame) ≤ buf_payload_size e
      ∧ (len ≤ room → frame = u8_of_Z RPMSG_DATA :: buf).
Proof.
  intros Hcts Hdev Hmax Hmem Hret Hlen. cbv zeta.
  exists (buf_payload_size e - 1). split.
  { destruct Hdev as [r Hr]. unfold rpmsg_tty_write_room.
    destruct (Z.eqb_spec (cts cport) 0); [done|]. rewrite Hr.
    simpl negb. cbv iota zeta. unfold sizeof_rpmsg_tty_payload. f_equal.
    apply int_of_id. unfold INT_MIN, INT_MAX in *. lia. }
  rewrite rpmsg_tty_write_sends by (done || lia). cbv zeta.
  unfold sizeof_rpmsg_tty_payload. rewrite Hret. simpl Z.eqb. cbv iota.
  split; [done|]. split; [lia|].
  assert (Z.of_nat
            (length (take (Z.to_nat (Z.min (Z.of_nat (length buf))
                                      (buf_payload_size e - 1))) buf))
          = Z.min (Z.of_nat (length buf)) (buf_payload_size e - 1)) as Htake.
  { rewrite length_take. lia. }
  split; [simpl length; lia|]. split; [simpl length; lia|].
  intros Hfit. rewrite Z.min_l by lia. by rewrite Nat2Z.id, firstn_all.
Qed.

Lemma write_consumes_up_to_write_room_witness :
  ∃ room,
    rpmsg_tty_write_room env_small attached_ready_port = Done room
    ∧ rpmsg_tty_write env_small attached_ready_port
        [Byte.x41; Byte.x42; Byte.x43; Byte.x44; Byte.x45]
      = Done (Z.min 5 room,
              [dev_dbg (send_msg 5);
               rpmsg_trysend
                 (Byte.x00
                  :: take (Z.to_nat (Z.min 5 room))
                       [Byte.x41; Byte.x42; Byte.x43; Byte.x44; Byte.x45]) 0]).
Proof.
  destruct (write_consumes_up_to_write_room env_small attached_ready_port
              [Byte.x41; Byte.x42; Byte.x43; Byte.x44; Byte.x45])
    as (room & Hroom & Hwrite & _).
  - vm_compute. discriminate.
  - by eexists.
  - vm_compute. split; discriminate.
  - reflexivity.
  - reflexivity.
  - reflexivity.
  - exists room. split; [exact Hroom | exact Hwrite].
Defined.

(** X7. A write reports an error only when the endpoint's buffer size
    cannot be read, and then returns that error code, or when no memory is
    available for the frame, and then returns [-ENOMEM]. In both cases the
    flag was up and nothing was handed to the endpoint. *)
Theorem write_error_sends_nothing e cport buf ret log :
  Z.of_nat (length buf) < INT_MAX →
  rpmsg_tty_write e cport buf = Done (ret, log) → ret < 0 →
  cts cport ≠ 0
  ∧ (∀ msg r, rpmsg_trysend msg r ∉ log)
  ∧ ((buf_payload_size e < 0 ∧ ret = buf_payload_size e)
     ∨ (0 < buf_payload_size e ∧ kzalloc_ok e = false ∧ ret = - ENOMEM)).
Proof.
  intros Hlen. rewrite rpmsg_tty_write_cases by done. cbv zeta.
  destruct (Z.eqb_spec (cts cport) 0); [intros [= <- <-]; lia|].
  destruct (rpdev cport); [|done].
  destruct (Z.ltb_spec (buf_payload_size e) 0).
  { intros [= <- <-] _. split; [done|]. split; [|by left].
    intros msg r. apply not_elem_of_logs. }
  destruct (Z.eqb_spec (buf_payload_size e) 0); [done|].
  destruct (kzalloc_ok e).
  - unfold sizeof_rpmsg_tty_payload.
    destruct (trysend_ret e =? 0); intros [= <- <-]; lia.
  - intros [= <- <-] _. split; [done|]. split; [|right; split; [lia|done]].
    intros msg r. apply not_elem_of_logs.
Qed.

Lemma write_error_sends_nothing_witness :
  (cts attached_ready_port ≠ 0
   ∧ (∀ msg r, rpmsg_trysend msg r ∉ [dev_dbg (send_msg 1)])
   ∧ ((buf_payload_size env_size_error < 0
       ∧ - ENODEV = buf_payload_size env_size_error)
      ∨ (0 < buf_payload_size env_size_error
         ∧ kzalloc_ok env_size_error = false ∧ - ENODEV = - ENOMEM)))
  ∧ (cts attached_ready_port ≠ 0
     ∧ (∀ msg r, rpmsg_trysend msg r ∉ [dev_dbg (send_msg 1)])
     ∧ ((buf_payload_size env_no_memory < 0
         ∧ - ENOMEM = buf_payload_size env_no_memory)
        ∨ (0 < buf_payload_size env_no_memory
           ∧ kzalloc_ok env_no_memory = false ∧ - ENOMEM = - ENOMEM))).
Proof.
  split.
  - apply (write_error_sends_nothing env_size_error attached_ready_port
             [Byte.x41] (- ENODEV) [dev_dbg (send_msg 1)]).
    + reflexivity.
    + reflexivity.
    + reflexivity.
  - apply (write_error_sends_nothing env_no_memory attached_ready_port
             [Byte.x41] (- ENOMEM) [dev_dbg (send_msg 1)]).
    + reflexivity.
    + reflexivity.
    + reflexivity.
Defined.

(** X8. For a buffer whose length fits an int with its tag, a write makes
    an invalid memory access exactly when the flag is up and either the
    port is not attached to its device, so that the endpoint is read
    through a NULL device, or the endpoint reports a buffer size of 0, so
    that the frame is allocated with size 0 and the tag is stored outside
    it. Every other write returns. *)
Theorem write_faults_only_unattached_or_zero_size e cport buf :
  Z.of_nat (length buf) < INT_MAX →
  (rpmsg_tty_write e cport buf = Oops
   ↔ cts cport ≠ 0 ∧ (rpdev cport = None ∨ buf_payload_size e = 0)).
Proof.
  intros Hlen. rewrite rpmsg_tty_write_cases by done. cbv zeta.
  destruct (Z.eqb_spec (cts cport) 0); [split; [done|by intros [? _]]|].
  destruct (rpdev cport) as [r|]; [|split; [intros _; by split; [|left]|done]].
  destruct (Z.ltb_spec (buf_payload_size e) 0).
  { split; [done|]. intros [_ [?|?]]; [done|lia]. }
  destruct (Z.eqb_spec (buf_payload_size e) 0).
  { split; [intros _; by split; [|right]|done]. }
  destruct (kzalloc_ok e).
  - destruct (trysend_ret e =? 0);
      (split; [done|]); intros [_ [?|?]]; done.
  - split; [done|]. intros [_ [?|?]]; done.
Qed.

Lemma write_faults_only_unattached_or_zero_size_witness :
  rpmsg_tty_write env_zero_size attached_ready_port [Byte.x41] = Oops
  ∧ rpmsg_tty_write env_ok ready_port [Byte.x41] = Oops.
Proof.
  split.
  - apply (proj2 (write_faults_only_unattached_or_zero_size env_zero_size
                    attached_ready_port [Byte.x41] eq_refl)).
    split; [discriminate | right; reflexivity].
  - apply (proj2 (write_faults_only_unattached_or_zero_size env_ok
                    ready_port [Byte.x41] eq_refl)).
    split; [discriminate | left; reflexivity].
Defined.

(** ** From the writer to the peer's stream *)

(** X9. What a write reports as consumed is what a peer running this driver
    receives: on a port attached to its device, when the send succeeds, the
    frame, given to the peer's receive callback with room for it in the flip
    buffer, appends to the peer's stream exactly the first [n] bytes of the
    buffer, [n] being the value the write returned, and leaves the peer's
    flag alone. When [n] is 0 (empty buffer, or a buffer size of 1) the
    frame holds the tag alone and the peer rejects it. *)
Theorem written_bytes_reach_peer e cport buf e' peer src :
  cts cport ≠ 0 → is_Some (rpdev cport) → 1 ≤ buf_payload_size e →
  kzalloc_ok e = true → trysend_ret e = 0 →
  Z.of_nat (length buf) < INT_MAX →
  Z.of_nat (length buf) ≤ flip_room e' →
  ∃ n frame,
    rpmsg_tty_write e cport buf
    = Done (n, [dev_dbg (send_msg (Z.of_nat (length buf)));
                rpmsg_trysend frame 0])
    ∧ 0 ≤ n ≤ Z.of_nat (length buf)
    ∧ ∃ ret peer' log,
        rpmsg_tty_cb e' peer frame src = Done (ret, peer', log)
        ∧ rx (port peer') = rx (port peer) ++ take (Z.to_nat n) buf
        ∧ cts peer' = cts peer
        ∧ (ret = 0 ↔ 0 < n).
Proof.
  intros Hcts Hdev Hmax Hmem Hret Hlen Hroom.
  rewrite rpmsg_tty_write_sends by done. cbv zeta.
  unfold sizeof_rpmsg_tty_payload. rewrite Hret. simpl Z.eqb. cbv iota.
  set (n := Z.min (Z.of_nat (length buf)) (buf_payload_size e - 1)).
  eexists n, _. split; [reflexivity|]. split; [lia|].
  assert (Z.of_nat (length (take (Z.to_nat n) buf)) = n) as Htake.
  { rewrite length_take. lia. }
  destruct (take (Z.to_nat n) buf) as [|b payload] eqn:Hsent.
  - simpl in Htake. eexists _, _, _. split; [reflexivity|].
    split; [by rewrite app_nil_r|]. split; [done|].
    unfold EINVAL. split; lia.
  - rewrite (rpmsg_tty_cb_dispatch _ _ _ _ _ _ rpmsg_tty_data_handler) by done.
    rewrite rpmsg_tty_data_handler_nonempty. cbv zeta.
    eexists _, _, _. split; [reflexivity|].
    cbn [fst snd port rx set_port cts].
    split; [|split; [done|]].
    + rewrite Htake. rewrite Z.max_r, Z.min_l by lia.
      rewrite <- Hsent at 1. by rewrite take_take, Nat.min_id, Hsent.
    + simpl length in Htake. split; [lia|done].
Qed.

Lemma written_bytes_reach_peer_witness :
  ∃ n frame,
    rpmsg_tty_write env_small attached_ready_port
      [Byte.x41; Byte.x42; Byte.x43; Byte.x44; Byte.x45]
    = Done (n, [dev_dbg (send_msg 5); rpmsg_trysend frame 0])
    ∧ 0 ≤ n ≤ 5
    ∧ ∃ ret peer' log,
        rpmsg_tty_cb env_ok attached_port frame 9 = Done (ret, peer', log)
        ∧ rx (port peer')
          = rx (port attached_port)
            ++ take (Z.to_nat n) [Byte.x41; Byte.x42; Byte.x43; Byte.x44; Byte.x45]
        ∧ cts peer' = cts attached_port
        ∧ (ret = 0 ↔ 0 < n).
Proof.
  apply (written_bytes_reach_peer env_small attached_ready_port
           [Byte.x41; Byte.x42; Byte.x43; Byte.x44; Byte.x45]
           env_ok attached_port 9).
  - vm_compute. discriminate.
  - by eexists.
  - vm_compute. discriminate.
  - reflexivity.
  - reflexivity.
  - reflexivity.
  - vm_compute. discriminate.
Defined.


(** ** The life cycle: probe, install, remove *)

(** The state a successful probe leaves. *)
Lemma rpmsg_tty_probe_success ke rpdev k k' log :
  rpmsg_tty_probe ke rpdev k = Done (0, k', log) → register_err ke = None →
  ∃ p i,
    0 ≤ i < MAX_TTY_RPMSG
    ∧ tty_idr k !! i = None
    ∧ heap k !! p = None
    ∧ k' = {| tty_idr := <[i := p]> (tty_idr k);
              heap := <[p := set_rpdev (Some rpdev) (set_id i zeroed)]> (heap k);
              drvdata := <[rpdev := p]> (drvdata k) |}
    ∧ log = [tty_port_init p; tty_port_register_device p i None;
             dev_dbg (new_channel i)].
Proof.
  intros Hprobe Hreg.
  destruct (rpmsg_tty_alloc_cport ke k) as [[p|err] k1] eqn:Halloc.
  - destruct (rpmsg_tty_alloc_cport_inv _ _ _ _ Halloc)
      as (i & Hi & Hfree & _ & Hp & ->).
    revert Hprobe. unfold rpmsg_tty_probe. rewrite Halloc. simpl heap.
    rewrite lookup_insert_eq, Hreg. simpl id. intros [= <- <-].
    exists p, i. split; [done|]. split; [done|]. split; [done|].
    split; [|done]. apply kstate_eq; simpl; [done| |done].
    by rewrite insert_insert_eq.
  - revert Hprobe. unfold rpmsg_tty_probe. rewrite Halloc. intros [= -> _ _].
    revert Halloc. rewrite rpmsg_tty_alloc_cport_unfold.
    destruct (cport_mem ke); simpl negb; cbv iota zeta; [|done].
    by destruct (_ <? 0).
Qed.

(** Removal of a port in the state a successful probe leaves. *)
Lemma rpmsg_tty_remove_probed e rpdev k p i :
  tty_idr k !! i = None → heap k !! p = None →
  rpmsg_tty_remove e rpdev
    {| tty_idr := <[i := p]> (tty_idr k);
       heap := <[p := set_rpdev (Some rpdev) (set_id i zeroed)]> (heap k);
       drvdata := <[rpdev := p]> (drvdata k) |}
  = Done ({| tty_idr := tty_idr k; heap := heap k;
             drvdata := <[rpdev := p]> (drvdata k) |},
          [dev_dbg (removing_device i)]
            ++ (if port_initialized e then [tty_port_tty_hangup p] else [])
            ++ [tty_unregister_device i; tty_port_destroy p]).
Proof.
  intros Hfree Hp. unfold rpmsg_tty_remove, rpmsg_tty_release_cport.
  simpl. rewrite !lookup_insert_eq. do 2 f_equal.
  apply kstate_eq; simpl; [|by apply delete_insert_id|done].
  unfold idr_remove. by apply delete_insert_id.
Qed.

(** X10. [rpmsg_tty_install] binds a tty to the port registered under the
    tty's index: after a successful probe, a tty whose index is the id of the
    new port gets that port as driver data and the answer of
    [tty_port_install]; for an index with no port the call fails with
    [-ENODEV] and leaves the tty as it was; and once the port is removed the
    same index is refused again. *)
Theorem install_finds_registered_port ke rpdev k k' log :
  rpmsg_tty_probe ke rpdev k = Done (0, k', log) → register_err ke = None →
  ∃ p cport,
    drvdata k' !! rpdev = Some p
    ∧ heap k' !! p = Some cport
    ∧ (∀ r tty, index tty = id cport →
                rpmsg_tty_install r k' tty
                = (r, {| index := index tty; driver_data := Some p |},
                   [tty_port_install p r]))
    ∧ (∀ r tty, tty_idr k' !! index tty = None →
                rpmsg_tty_install r k' tty
                = (- ENODEV, tty, [dev_err_cannot_get_cport]))
    ∧ (∀ e r tty, index tty = id cport →
                  ∃ k'' rlog,
                    rpmsg_tty_remove e rpdev k' = Done (k'', rlog)
                    ∧ rpmsg_tty_install r k'' tty
                      = (- ENODEV, tty, [dev_err_cannot_get_cport])).
Proof.
  intros Hprobe Hreg.
  destruct (rpmsg_tty_probe_success _ _ _ _ _ Hprobe Hreg)
    as (p & i & Hi & Hfree & Hp & -> & _).
  exists p, (set_rpdev (Some rpdev) (set_id i zeroed)). simpl.
  rewrite !lookup_insert_eq. split; [done|]. split; [done|].
  split; [|split].
  - intros r tty Hidx. unfold rpmsg_tty_install, idr_find. simpl.
    by rewrite Hidx, lookup_insert_eq.
  - intros r tty Hnone. unfold rpmsg_tty_install, idr_find. simpl.
    by rewrite Hnone.
  - intros e r tty Hidx. rewrite rpmsg_tty_remove_probed by done.
    eexists _, _. split; [reflexivity|].
    unfold rpmsg_tty_install, idr_find. simpl. by rewrite Hidx, Hfree.
Qed.

Lemma install_finds_registered_port_witness :
  ∃ p cport,
    drvdata kstate_one !! 7 = Some p
    ∧ heap kstate_one !! p = Some cport
    ∧ (∀ r tty, index tty = id cport →
                rpmsg_tty_install r kstate_one tty
                = (r, {| index := index tty; driver_data := Some p |},
                   [tty_port_install p r]))
    ∧ (∀ r tty, tty_idr kstate_one !! index tty = None →
                rpmsg_tty_install r kstate_one tty
                = (- ENODEV, tty, [dev_err_cannot_get_cport]))
    ∧ (∀ e r tty, index tty = id cport →
                  ∃ k'' rlog,
                    rpmsg_tty_remove e 7 kstate_one = Done (k'', rlog)
                    ∧ rpmsg_tty_install r k'' tty
                      = (- ENODEV, tty, [dev_err_cannot_get_cport])).
Proof.
  apply (install_finds_registered_port kenv_ok 7 kstate_init kstate_one log_one).
  - vm_compute. reflexivity.
  - reflexivity.
Defined.

(** X11. Removing a probed port undoes the probe: with the state and the
    effects a successful probe left, [rpmsg_tty_remove] hangs up the tty
    only when the tty port is initialised, unregisters the tty device under
    the id the probe registered, destroys the tty port, and leaves the
    registry and the memory exactly as they were before the probe. *)
Theorem remove_undoes_probe ke rpdev k k' log e :
  rpmsg_tty_probe ke rpdev k = Done (0, k', log) → register_err ke = None →
  ∃ p i k'',
    tty_port_register_device p i None ∈ log
    ∧ tty_idr k' !! i = Some p
    ∧ rpmsg_tty_remove e rpdev k'
      = Done (k'',
              [dev_dbg (removing_device i)]
                ++ (if port_initialized e then [tty_port_tty_hangup p] else [])
                ++ [tty_unregister_device i; tty_port_destroy p])
    ∧ tty_idr k'' = tty_idr k
    ∧ heap k'' = heap k
    ∧ tty_idr k'' !! i = None
    ∧ heap k'' !! p = None.
Proof.
  intros Hprobe Hreg.
  destruct (rpmsg_tty_probe_success _ _ _ _ _ Hprobe Hreg)
    as (p & i & Hi & Hfree & Hp & -> & ->).
  exists p, i. eexists. split.
  { apply list_elem_of_further, list_elem_of_here. }
  split; [simpl; apply lookup_insert_eq|].
  split; [by apply rpmsg_tty_remove_probed|]. done.
Qed.

Lemma remove_undoes_probe_witness :
  ∃ p i k'',
    tty_port_register_device p i None ∈ log_one
    ∧ tty_idr kstate_one !! i = Some p
    ∧ rpmsg_tty_remove kenv_ok 7 kstate_one
      = Done (k'',
              [dev_dbg (removing_device i)]
                ++ (if port_initialized kenv_ok
                    then [tty_port_tty_hangup p] else [])
                ++ [tty_unregister_device i; tty_port_destroy p])
    ∧ tty_idr k'' = tty_idr kstate_init
    ∧ heap k'' = heap kstate_init
    ∧ tty_idr k'' !! i = None
    ∧ heap k'' !! p = None.
Proof.
  apply (remove_undoes_probe kenv_ok 7 kstate_init kstate_one log_one kenv_ok).
  - vm_compute. reflexivity.
  - reflexivity.
Defined.

(** ** The registry invariant *)

Lemma registry_ok_insert k p i cport :
  registry_ok k → 0 ≤ i < MAX_TTY_RPMSG →
  tty_idr k !! i = None → heap k !! p = None → id cport = i →
  ∀ d, registry_ok {| tty_idr := <[i := p]> (tty_idr k);
                      heap := <[p := cport]> (heap k);
                      drvdata := d |}.
Proof.
  intros [Hidr Hheap] Hi Hfree Hp Hid d. split; simpl.
  - intros j q Hj. destruct (decide (i = j)) as [<-|Hne].
    + rewrite lookup_insert_eq in Hj. simplify_eq. split; [done|].
      exists cport. by rewrite lookup_insert_eq.
    + rewrite lookup_insert_ne in Hj by done.
      destruct (Hidr j q Hj) as (Hrange & c & Hq & Hc). split; [done|].
      exists c. split; [|done]. rewrite lookup_insert_ne; [done|].
      intros <-. congruence.
  - intros q c Hq. destruct (decide (p = q)) as [<-|Hne].
    + rewrite lookup_insert_eq in Hq. simplify_eq. apply lookup_insert_eq.
    + rewrite lookup_insert_ne in Hq by done.
      pose proof (Hheap q c Hq) as Hreg.
      rewrite lookup_insert_ne; [done|]. intros Heq.
      rewrite Heq in Hfree. congruence.
Qed.

Lemma registry_ok_probe e rpdev k ret k' log :
  registry_ok k → rpmsg_tty_probe e rpdev k = Done (ret, k', log) →
  registry_ok k'.
Proof.
  intros Hok Hprobe.
  destruct (rpmsg_tty_alloc_cport e k) as [[p|err] k1] eqn:Halloc.
  - destruct (register_err e) as [err|] eqn:Hreg.
    + destruct (rpmsg_tty_probe_err_destroy e rpdev k err p k1 Hreg Halloc)
        as (cport & _ & _ & _ & _ & Hp). congruence.
    + destruct (rpmsg_tty_alloc_cport_inv _ _ _ _ Halloc)
        as (i & Hi & Hfree & _ & Hp & ->).
      revert Hprobe. unfold rpmsg_tty_probe. rewrite Halloc. simpl heap.
      rewrite lookup_insert_eq, Hreg. intros [= _ <- _].
      unfold dev_set_drvdata, set_heap. simpl. rewrite insert_insert_eq.
      by apply registry_ok_insert.
  - revert Hprobe. unfold rpmsg_tty_probe. rewrite Halloc. intros [= _ <- _].
    by rewrite (rpmsg_tty_alloc_cport_ERR e k err k1 Halloc).
Qed.

Lemma registry_ok_remove e rpdev k k' log :
  registry_ok k → rpmsg_tty_remove e rpdev k = Done (k', log) →
  registry_ok k'.
Proof.
  intros [Hidr Hheap]. unfold rpmsg_tty_remove, rpmsg_tty_release_cport.
  destruct (drvdata k !! rpdev) as [p|]; [|done].
  destruct (heap k !! p) as [cport|] eqn:Hp; [|done].
  intros [= <- _]. pose proof (Hheap p cport Hp) as Hreg.
  unfold idr_remove. split; simpl.
  - intros j q Hj. apply lookup_delete_Some in Hj as [Hne Hj].
    destruct (Hidr j q Hj) as (Hrange & c & Hq & Hc). split; [done|].
    exists c. split; [|done]. apply lookup_delete_Some. split; [|done].
    intros <-. congruence.
  - intros q c Hq. apply lookup_delete_Some in Hq as [Hne Hq].
    pose proof (Hheap q c Hq) as Hregq.
    apply lookup_delete_Some. split; [|done]. intros Heq.
    rewrite <- Heq in Hregq. congruence.
Qed.

Lemma registry_ok_size k : registry_ok k → (size (tty_idr k) ≤ 32)%nat.
Proof.
  intros [Hidr _]. rewrite <- size_dom.
  transitivity (size (list_to_set (seqZ 0 32) : gset Z)).
  - apply subseteq_size. intros i Hi. apply elem_of_dom in Hi as [p Hp].
    apply elem_of_list_to_set, elem_of_seqZ.
    destruct (Hidr i p Hp) as [Hrange _]. unfold MAX_TTY_RPMSG in Hrange. lia.
  - rewrite size_list_to_set by apply NoDup_seqZ. by rewrite length_seqZ.
Qed.

(** X12. Whatever probes and removals the driver has gone through since
    its initialisation, the registry and the memory agree: every id in use
    is one of 0..31 and names a port in memory that carries this id, every
    port in memory is registered under its id, and so no two ports in
    memory share an id and at most 32 ids are in use. *)
Theorem registry_invariant cs k :
  krun kstate_init cs = Done k →
  registry_ok k
  ∧ (∀ p c, heap k !! p = Some c → 0 ≤ id c < MAX_TTY_RPMSG)
  ∧ (∀ p1 p2 c1 c2,
       heap k !! p1 = Some c1 → heap k !! p2 = Some c2 →
       id c1 = id c2 → p1 = p2)
  ∧ (size (tty_idr k) ≤ 32)%nat.
Proof.
  assert (∀ k0, registry_ok k0 → krun k0 cs = Done k → registry_ok k) as Hrun.
  { induction cs as [|c cs IH]; intros k0 Hok; simpl.
    - by intros [= <-].
    - destruct c as [e rpdev|e rpdev]; simpl.
      + destruct (rpmsg_tty_probe e rpdev k0) as [[[ret k1] log]|] eqn:Hp;
          [|done].
        apply IH. by apply (registry_ok_probe e rpdev k0 ret k1 log).
      + destruct (rpmsg_tty_remove e rpdev k0) as [[k1 log]|] eqn:Hr; [|done].
        apply IH. by apply (registry_ok_remove e rpdev k0 k1 log). }
  intros Hk. assert (registry_ok k) as Hok.
  { apply (Hrun kstate_init); [|done]. split; simpl; intros ? ? H;
      by rewrite lookup_empty in H. }
  split; [done|]. pose proof Hok as [Hidr Hheap]. split.
  - intros p c Hp. destruct (Hidr _ _ (Hheap p c Hp)) as [Hrange _]. done.
  - split; [|by apply registry_ok_size].
    intros p1 p2 c1 c2 H1 H2 Hid.
    pose proof (Hheap p1 c1 H1) as Hr1. pose proof (Hheap p2 c2 H2) as Hr2.
    rewrite Hid in Hr1. congruence.
Qed.

Lemma registry_invariant_witness :
  registry_ok kstate_sample
  ∧ (∀ p c, heap kstate_sample !! p = Some c → 0 ≤ id c < MAX_TTY_RPMSG)
  ∧ (∀ p1 p2 c1 c2,
       heap kstate_sample !! p1 = Some c1 → heap kstate_sample !! p2 = Some c2 →
       id c1 = id c2 → p1 = p2)
  ∧ (size (tty_idr kstate_sample) ≤ 32)%nat.
Proof.
  apply (registry_invariant sample_calls kstate_sample).
  vm_compute. reflexivity.
Defined.

(** ** Module initialisation and exit *)

(** X13. [rpmsg_tty_init] keeps nothing when it fails: it returns 0 with
    the tty driver allocated and both registrations made, or the negative
    error of the step that failed with every earlier step undone (the tty
    driver unregistered if it was registered, the driver structure put
    back). After a successful initialisation [rpmsg_tty_exit] gives
    everything back. *)
Theorem init_keeps_nothing_on_failure tb std e :
  (∀ err, alloc_driver_err e = Some err → err < 0) →
  ∃ ret tm log,
    rpmsg_tty_init tb std e = (ret, tm, log)
    ∧ ret ≤ 0
    ∧ (ret = 0 →
       is_Some tm
       ∧ accounts nothing_held log
         = {| driver_allocated := true; tty_driver_registered := true;
              rpmsg_driver_registered := true |}
       ∧ accounts nothing_held (log ++ rpmsg_tty_exit) = nothing_held)
    ∧ (ret < 0 →
       tm = None
       ∧ accounts nothing_held log = nothing_held
       ∧ (alloc_driver_err e = Some ret
          ∨ (alloc_driver_err e = None ∧ tty_register_ret e = ret)
          ∨ (alloc_driver_err e = None ∧ 0 ≤ tty_register_ret e
             ∧ rpmsg_register_ret e = ret))).
Proof.
  intros Herr. unfold rpmsg_tty_init.
  destruct (alloc_driver_err e) as [err|] eqn:Halloc.
  - specialize (Herr err eq_refl). eexists _, _, _. split; [reflexivity|].
    split; [lia|]. split; [lia|]. intros _. split; [done|]. split; [done|].
    by left.
  - cbv zeta. destruct (Z.ltb_spec (tty_register_ret e) 0) as [Htty|Htty].
    + eexists _, _, _. split; [reflexivity|]. split; [lia|]. split; [lia|].
      intros _. split; [done|]. split; [|right; by left].
      unfold accounts. simpl.
      by destruct (Z.ltb_spec (tty_register_ret e) 0); [|lia].
    + destruct (Z.ltb_spec (rpmsg_register_ret e) 0) as [Hrp|Hrp].
      * eexists _, _, _. split; [reflexivity|]. split; [lia|]. split; [lia|].
        intros _. split; [done|]. split; [|right; by right].
        unfold accounts. simpl.
        destruct (Z.ltb_spec (tty_register_ret e) 0); [lia|].
        by destruct (Z.ltb_spec (rpmsg_register_ret e) 0); [|lia].
      * eexists _, _, _. split; [reflexivity|]. split; [lia|].
        split; [|lia]. intros _. split; [by eexists|].
        unfold accounts. simpl.
        destruct (Z.ltb_spec (tty_register_ret e) 0); [lia|].
        by destruct (Z.ltb_spec (rpmsg_register_ret e) 0); [lia|].
Qed.

Lemma init_keeps_nothing_on_failure_witness :
  ∃ ret tm log,
    rpmsg_tty_init linux_termbits std_termios menv_rpmsg_fails = (ret, tm, log)
    ∧ ret ≤ 0
    ∧ (ret = 0 →
       is_Some tm
       ∧ accounts nothing_held log
         = {| driver_allocated := true; tty_driver_registered := true;
              rpmsg_driver_registered := true |}
       ∧ accounts nothing_held (log ++ rpmsg_tty_exit) = nothing_held)
    ∧ (ret < 0 →
       tm = None
       ∧ accounts nothing_held log = nothing_held
       ∧ (alloc_driver_err menv_rpmsg_fails = Some ret
          ∨ (alloc_driver_err menv_rpmsg_fails = None
             ∧ tty_register_ret menv_rpmsg_fails = ret)
          ∨ (alloc_driver_err menv_rpmsg_fails = None
             ∧ 0 ≤ tty_register_ret menv_rpmsg_fails
             ∧ rpmsg_register_ret menv_rpmsg_fails = ret))).
Proof.
  apply (init_keeps_nothing_on_failure linux_termbits std_termios
           menv_rpmsg_fails).
  intros err Herr. discriminate Herr.
Defined.

Lemma clear_flags_spec x a b n :
  0 ≤ x < 2 ^ 32 →
  Z.testbit (clear_flags x a b) n
  = Z.testbit x n && negb (Z.testbit a n || Z.testbit b n).
Proof.
  intros Hx. unfold clear_flags, uint_of.
  change 4294967296 with (2 ^ 32). rewrite Z.land_spec.
  destruct (Z.lt_ge_cases n 0) as [Hneg|Hn].
  { by rewrite !Z.testbit_neg_r by done. }
  destruct (Z.lt_ge_cases n 32) as [Hlow|Hhigh].
  - rewrite Z.mod_pow2_bits_low by lia.
    by rewrite Z.lnot_spec, Z.lor_spec by done.
  - assert (Z.testbit x n = false) as ->; [|done].
    rewrite <- (Z.mod_small x (2 ^ 32)) by done.
    apply Z.mod_pow2_bits_high. lia.
Qed.

(** X14. The termios a successfully initialised driver starts from is the
    standard one with exactly the bits of [ECHO] and [ICANON] cleared in the
    local flags and the bits of [OPOST] and [ONLCR] cleared in the output
    flags; every other bit is as in [tty_std_termios]. *)
Theorem init_termios_raw tb std e tm log :
  rpmsg_tty_init tb std e = (0, Some tm, log) →
  0 ≤ c_lflag std < 2 ^ 32 → 0 ≤ c_oflag std < 2 ^ 32 →
  ∀ n,
    Z.testbit (c_lflag tm) n
    = Z.testbit (c_lflag std) n
      && negb (Z.testbit (ECHO tb) n || Z.testbit (ICANON tb) n)
    ∧ Z.testbit (c_oflag tm) n
      = Z.testbit (c_oflag std) n
        && negb (Z.testbit (OPOST tb) n || Z.testbit (ONLCR tb) n).
Proof.
  unfold rpmsg_tty_init.
  destruct (alloc_driver_err e); [done|]. cbv zeta.
  destruct (_ <? 0); [done|]. destruct (_ <? 0); [done|].
  intros [= <- _] Hl Ho n. simpl.
  by rewrite !clear_flags_spec by done.
Qed.

Lemma init_termios_raw_witness :
  ∃ tm log,
    rpmsg_tty_init linux_termbits std_termios menv_ok = (0, Some tm, log)
    ∧ c_lflag tm = 35377 ∧ c_oflag tm = 0
    ∧ ∀ n,
        Z.testbit (c_lflag tm) n
        = Z.testbit (c_lflag std_termios) n
          && negb (Z.testbit (ECHO linux_termbits) n
                   || Z.testbit (ICANON linux_termbits) n)
        ∧ Z.testbit (c_oflag tm) n
          = Z.testbit (c_oflag std_termios) n
            && negb (Z.testbit (OPOST linux_termbits) n
                     || Z.testbit (ONLCR linux_termbits) n).
Proof.
  eexists _, _. split; [vm_compute; reflexivity|].
  split; [reflexivity|]. split; [reflexivity|].
  apply (init_termios_raw linux_termbits std_termios menv_ok _ _ eq_refl).
  - vm_compute. split; [discriminate | reflexivity].
  - vm_compute. split; [discriminate | reflexivity].
Defined.

(** ** Errors of the creation of a port *)

(** X15. The creation of a port knows two errors. Without memory for the
    port [rpmsg_tty_alloc_cport] gives [-ENOMEM]; when the id allocator
    fails, for lack of a free id or of memory of its own, it gives
    [-ENOSPC] in both cases. [rpmsg_tty_probe] logs the failure, returns
    that error without touching the tty layer, and the driver's state is
    unchanged. *)
Theorem probe_creation_errors e rpdev k :
  (cport_mem e = false →
   rpmsg_tty_probe e rpdev k
   = Done (- ENOMEM, k, [dev_err failed_to_alloc_tty_port]))
  ∧ (cport_mem e = true →
     idr_mem e = false
     ∨ (∀ j, 0 ≤ j < MAX_TTY_RPMSG → is_Some (tty_idr k !! j)) →
     rpmsg_tty_probe e rpdev k
     = Done (- ENOSPC, k, [dev_err failed_to_alloc_tty_port]))
  ∧ (∀ ret k' log,
       rpmsg_tty_probe e rpdev k = Done (ret, k', log) →
       register_err e = None → ret ≠ 0 →
       k' = k
       ∧ log = [dev_err failed_to_alloc_tty_port]
       ∧ (ret = - ENOMEM ∨ ret = - ENOSPC)).
Proof.
  split; [|split].
  - intros Hmem. unfold rpmsg_tty_probe, rpmsg_tty_alloc_cport.
    by rewrite Hmem.
  - intros Hmem Hfail.
    assert (rpmsg_tty_alloc_cport e k = (ERR_PTR (- ENOSPC), k)) as Halloc.
    { rewrite rpmsg_tty_alloc_cport_unfold, Hmem. simpl negb. cbv iota zeta.
      assert (∃ err, err < 0
                ∧ idr_alloc (tty_idr k) (kzalloc k).1 0 MAX_TTY_RPMSG (idr_mem e)
                  = (err, tty_idr k)) as (err & Herr & Hidr).
      { destruct Hfail as [Hidr|Hfull].
        - rewrite Hidr. exists (- ENOMEM). by split.
        - by apply idr_alloc_full. }
      rewrite Hidr. cbn [fst snd].
      destruct (Z.ltb_spec err 0); [|lia].
      rewrite kfree_kzalloc. f_equal. by apply kstate_eq. }
    unfold rpmsg_tty_probe. by rewrite Halloc.
  - intros ret k' log Hprobe Hreg Hret.
    destruct (rpmsg_tty_alloc_cport e k) as [[p|err] k1] eqn:Halloc.
    + destruct (rpmsg_tty_probe_ok e rpdev k p k1 Halloc Hreg)
        as (i & k2 & Hok & _). congruence.
    + pose proof (rpmsg_tty_alloc_cport_ERR e k err k1 Halloc) as ->.
      revert Hprobe. unfold rpmsg_tty_probe. rewrite Halloc.
      intros [= <- <- <-]. split; [done|]. split; [done|].
      revert Halloc. rewrite rpmsg_tty_alloc_cport_unfold.
      destruct (cport_mem e); simpl negb; cbv iota zeta.
      * destruct (_ <? 0); [|done]. intros [= <- _]. by right.
      * intros [= <-]. by left.
Qed.

Lemma probe_creation_errors_witness :
  rpmsg_tty_probe
    {| cport_mem := false; idr_mem := true; register_err := None;
       port_initialized := false |} 7 kstate_three
  = Done (- ENOMEM, kstate_three, [dev_err failed_to_alloc_tty_port])
  ∧ rpmsg_tty_probe
      {| cport_mem := true; idr_mem := false; register_err := None;
         port_initialized := false |} 7 kstate_three
    = Done (- ENOSPC, kstate_three, [dev_err failed_to_alloc_tty_port])
  ∧ rpmsg_tty_probe kenv_ok 7 kstate_full
    = Done (- ENOSPC, kstate_full, [dev_err failed_to_alloc_tty_port]).
Proof.
  split; [|split].
  - apply (proj1 (probe_creation_errors
                    {| cport_mem := false; idr_mem := true;
                       register_err := None; port_initialized := false |}
                    7 kstate_three)).
    reflexivity.
  - apply (proj1 (proj2 (probe_creation_errors
                    {| cport_mem := true; idr_mem := false;
                       register_err := None; port_initialized := false |}
                    7 kstate_three))).
    + reflexivity.
    + left. reflexivity.
  - apply (proj1 (proj2 (probe_creation_errors kenv_ok 7 kstate_full))).
    + reflexivity.
    + right. apply ids_in_use_spec. vm_compute. reflexivity.
Defined.

